(** * HeatControlAPI: the heating decision, telemetry ingestion and weather loop

    A shallow embedding of [API/main.py] (FastAPI handlers over a MySQL
    database and an InfluxDB bucket).  The handlers are written in a small
    state-and-exception monad over a [World] that holds the SQL tables, the
    points written to the bucket and the trace of external interactions.
    What lies outside the repository (the clock, database and network
    faults, the weather provider's replies, the parsers of the Python
    standard library) is an [Env] the handlers are run against. *)

From Stdlib Require Import ZArith List Ascii String Bool Lia.
From Stdlib Require Import Floats.SpecFloat DecimalString Sorting.Sorted.
From Stdlib Require Import DecimalZ DecimalPos.
Import ListNotations.
Open Scope string_scope.
Open Scope list_scope.
Open Scope Z_scope.

(* ================================================================= *)
(** ** Python values *)

(** A Python [float] is an IEEE-754 binary64; [<] on floats is [SFltb]
    (false as soon as one side is NaN). *)
Definition float := spec_float.

Definition float_lt (a b : float) : bool := SFltb a b.

(** [math.isfinite(x)]. *)
Definition is_finite (x : float) : bool :=
  match x with
  | S754_zero _ | S754_finite _ _ _ => true
  | S754_infinity _ | S754_nan => false
  end.

Definition float_one : float := S754_finite false 4503599627370496 (-52).
Definition float_zero : float := S754_zero false.

(** [str(n)] for an [int]. *)
Definition py_str (n : Z) : string := NilZero.string_of_int (Z.to_int n).

(** Truthiness of an optional string: [None] and [""] are falsy. *)
Definition str_truthy (s : option string) : bool :=
  match s with
  | None => false
  | Some EmptyString => false
  | Some _ => true
  end.

(** [s.replace(old, new)] where [old] is a single character. *)
Fixpoint str_replace_char (old : Ascii.ascii) (new : string) (s : string) : string :=
  match s with
  | EmptyString => EmptyString
  | String c rest =>
      if Ascii.eqb c old
      then (new ++ str_replace_char old new rest)%string
      else String c (str_replace_char old new rest)
  end.

(** Exceptions that the handlers raise or that reach them from a library. *)
Inductive exn : Type :=
| HTTPException (status_code : Z) (detail : string)
| ValueError
| TypeError
| AttributeError
| OverflowError
| MySQLError
| InfluxError
| RequestException.

Inductive Result (A : Type) : Type :=
| Ok (a : A)
| Raise (e : exn).
Arguments Ok {A} a.
Arguments Raise {A} e.

(* ================================================================= *)
(** ** [datetime.time], [datetime.timedelta], naive [datetime] *)

Module Time.

(** [datetime.time]: the fields Python compares, in this order. *)
Record time : Type := mkTime
  { hour : Z; minute : Z; second : Z; microsecond : Z }.

(** The range check of the [time(...)] constructor. *)
Definition in_range (h m s us : Z) : bool :=
  (0 <=? h) && (h <=? 23) && (0 <=? m) && (m <=? 59) &&
  (0 <=? s) && (s <=? 59) && (0 <=? us) && (us <=? 999999).

(** [time(h, m, s)]: [ValueError] when a field is out of range. *)
Definition py_time (h m s : Z) : Result time :=
  if in_range h m s 0 then Ok (mkTime h m s 0) else Raise ValueError.

Definition wf (t : time) : Prop :=
  in_range (hour t) (minute t) (second t) (microsecond t) = true.

(** Naive times compare as the tuples (hour, minute, second, microsecond). *)
Definition cmp (a b : time) : comparison :=
  match hour a ?= hour b with
  | Eq =>
      match minute a ?= minute b with
      | Eq =>
          match second a ?= second b with
          | Eq => microsecond a ?= microsecond b
          | c => c
          end
      | c => c
      end
  | c => c
  end.

Definition ltb (a b : time) : bool :=
  match cmp a b with Lt => true | _ => false end.
Definition leb (a b : time) : bool :=
  match cmp a b with Gt => false | _ => true end.
Definition geb (a b : time) : bool :=
  match cmp a b with Lt => false | _ => true end.

(** Microseconds since midnight: the position of a time in the day. *)
Definition of_day (t : time) : Z :=
  ((hour t * 60 + minute t) * 60 + second t) * 1000000 + microsecond t.

Definition lt (a b : time) : Prop := of_day a < of_day b.
Definition le (a b : time) : Prop := of_day a <= of_day b.

End Time.
Import Time.

(** A naive [datetime] is the number of microseconds its wall-clock reading
    lies after 1970-01-01T00:00:00; an instant is the same count in UTC. *)
Definition datetime := Z.

Definition us_per_second : Z := 1000000.
Definition us_per_day : Z := 86400 * us_per_second.

(** [d.time()]. *)
Definition datetime_time (d : datetime) : time :=
  let us := d mod us_per_day in
  mkTime (us / (3600 * us_per_second))
         ((us / (60 * us_per_second)) mod 60)
         ((us / us_per_second) mod 60)
         (us mod us_per_second).

(** A [timedelta] is its length in microseconds; [int(td.total_seconds())]
    truncates toward zero. *)
Definition timedelta := Z.

Definition total_seconds_int (td : timedelta) : Z := Z.quot td us_per_second.

(* ================================================================= *)
(** ** The relational tables (sql.py) *)

Record UserRow : Type := mkUser
  { u_id : Z; u_latitude : float; u_longitude : float }.

Record RoomRow : Type := mkRoom
  { r_id : Z; r_user_id : Z; r_name : string }.

(** What the connector hands back for a [TIME] column, as the handler's
    [isinstance] chain distinguishes it. *)
Inductive sql_time : Type :=
| SqlTimedelta (td : timedelta)
| SqlStr (s : string)
| SqlTime (t : time).

Record SettingsRow : Type := mkSettings
  { s_user_id : Z;
    s_room_id : Z;
    s_timezone : string;
    s_wanted_temp_day : float;
    s_wanted_temp_night : float;
    s_night_start : sql_time;
    s_night_end : sql_time }.

(** A row of [SELECT wanted_temp_day, wanted_temp_night, night_start,
    night_end FROM room_settings ...], the dictionary the heating handler
    reads. *)
Record HeatingSettings : Type := mkHeating
  { wanted_temp_day : float;
    wanted_temp_night : float;
    night_start : sql_time;
    night_end : sql_time }.

(** The statements the embedded handlers send. *)
Inductive sql_stmt : Type :=
| SelectUsers
| SelectRoom (room_id user_id : Z)
| SelectHeatingSettings (user_id room_id : Z)
| DeleteRoom (room_id : Z).

(* ================================================================= *)
(** ** The bucket (InfluxDB) *)

(** A point as this program writes it: a measurement, the tag [user_id],
    the tag [room_id] (absent on weather points), the field ["value"] and
    a time. *)
Record Point : Type := mkPoint
  { p_measurement : string;
    p_user_id : string;
    p_room_id : option string;
    p_value : float;
    p_time : Z }.

(** A bound of [range(start:, stop:)]. *)
Inductive flux_time : Type :=
| FluxNow
| FluxDuration (d : Z)
| FluxTimeLit (v : string).

Inductive flux_tail : Type :=
| FluxSortTime
| FluxLast.

(** The Flux pipelines of the room handlers:
    [from |> range |> filter _measurement |> filter user_id
          |> filter room_id |> sort(columns: ["_time"]) or last()]. *)
Record FluxQuery : Type := mkQuery
  { q_start : flux_time;
    q_stop : flux_time;
    q_measurement : string;
    q_user_id : string;
    q_room_id : string;
    q_tail : flux_tail }.

(** A row of a result table: [get_time()], [get_value()]. *)
Record FluxRecord : Type := mkRecord
  { get_time : Z; get_value : float }.

(* ================================================================= *)
(** ** The weather provider's replies *)

#[local] Unset Elimination Schemes.
Inductive json : Type :=
| JNull
| JBool (b : bool)
| JInt (n : Z)
| JFloat (f : float)
| JStr (s : string)
| JArr (items : list json)
| JObj (fields : list (string * json)).
#[local] Set Elimination Schemes.

(** [requests.get(...)], [raise_for_status()] and [response.json()] taken
    together: either one of them raises, or there is a decoded body. *)
Inductive http_reply : Type :=
| HttpFailure
| HttpBody (data : json).

(* ================================================================= *)
(** ** World, environment, trace *)

Inductive Event : Type :=
| EvSql (stmt : sql_stmt)
| EvClock
| EvHttpGet (latitude longitude : float)
| EvInfluxWrite (p : Point)
| EvInfluxQuery (q : FluxQuery)
| EvInfluxDelete (room_id user_id : string)
| EvSleep (seconds : Z).

Record World : Type := mkWorld
  { users : list UserRow;
    rooms : list RoomRow;
    room_settings : list SettingsRow;
    influx : list Point;
    trace : list Event }.

(** Everything the program does not decide.  The answers are indexed by the
    number of external interactions made so far ([length (trace w)]). *)
Record Env : Type := mkEnv
  { (* the clock: UTC instant at the n-th interaction, and the offset of
       the server's local zone at an instant *)
    utc_at : nat -> Z;
    local_utcoffset : Z -> Z;
    (* faults *)
    sql_fault : nat -> bool;
    influx_fault : nat -> bool;
    (* the weather provider *)
    http_get : nat -> http_reply;
    (* library parsers; [None] stands for the exception they raise *)
    strptime_HMS : string -> option (Z * Z * Z);
    fromisoformat : string -> option datetime;
    flux_time_literal : string -> option Z;
    float_of_int : Z -> option float;
    float_of_str : string -> option float;
    (* [ZoneInfo(key).utcoffset] at an instant; unused by main.py *)
    zone_utcoffset : string -> Z -> Z }.

(* ================================================================= *)
(** ** The monad of the handlers *)

(** A handler transforms the world and either returns or raises; what it
    did before raising stays done. *)
Definition M (A : Type) : Type := World -> Result A * World.

Definition ret {A : Type} (a : A) : M A := fun w => (Ok a, w).

Definition bind {A B : Type} (c : M A) (k : A -> M B) : M B :=
  fun w =>
    match c w with
    | (Ok a, w') => k a w'
    | (Raise e, w') => (Raise e, w')
    end.

Definition raise {A : Type} (e : exn) : M A := fun w => (Raise e, w).

(** [try: body / except Exception as e: handler e]. *)
Definition try_except {A : Type} (body : M A) (handler : exn -> M A) : M A :=
  fun w =>
    match body w with
    | (Ok a, w') => (Ok a, w')
    | (Raise e, w') => handler e w'
    end.

Definition lift {A : Type} (r : Result A) : M A := fun w => (r, w).

Notation "x <- c ;; k" := (bind c (fun x => k))
  (at level 61, c at next level, right associativity).
Notation "c ;;; k" := (bind c (fun _ => k))
  (at level 61, right associativity).

(** [for x in xs: body x]. *)
Fixpoint for_each {A : Type} (xs : list A) (body : A -> M unit) : M unit :=
  match xs with
  | [] => ret tt
  | x :: rest => body x ;;; for_each rest body
  end.

(** [for i, x in enumerate(xs): body i x], counting from [i]. *)
Fixpoint for_enumerate {A : Type} (i : nat) (xs : list A)
    (body : nat -> A -> M unit) : M unit :=
  match xs with
  | [] => ret tt
  | x :: rest => body i x ;;; for_enumerate (S i) rest body
  end.

Definition is_empty {A : Type} (l : list A) : bool :=
  match l with [] => true | _ => false end.

(** World updates. *)
Definition emit (ev : Event) (w : World) : World :=
  mkWorld (users w) (rooms w) (room_settings w) (influx w) (trace w ++ [ev]).

Definition set_influx (pts : list Point) (w : World) : World :=
  mkWorld (users w) (rooms w) (room_settings w) pts (trace w).

Definition set_rooms (rs : list RoomRow) (ss : list SettingsRow) (w : World) : World :=
  mkWorld (users w) rs ss (influx w) (trace w).

Definition ticks (w : World) : nat := List.length (trace w).

(* ================================================================= *)
(** ** What the bucket answers *)

(** Within one series a point written at a time that is already present
    replaces the stored value; the series is kept in time order. *)
Fixpoint upsert (r : FluxRecord) (rows : list FluxRecord) : list FluxRecord :=
  match rows with
  | [] => [r]
  | x :: rest =>
      if get_time r <? get_time x then r :: rows
      else if get_time r =? get_time x then r :: rest
      else x :: upsert r rest
  end.

Definition point_matches (q : FluxQuery) (p : Point) : bool :=
  String.eqb (p_measurement p) (q_measurement q) &&
  String.eqb (p_user_id p) (q_user_id q) &&
  match p_room_id p with
  | Some r => String.eqb r (q_room_id q)
  | None => false
  end.

(** The series the three filters select, from the points written so far. *)
Definition series_of (q : FluxQuery) (written : list Point) : list FluxRecord :=
  fold_left
    (fun rows p =>
       if point_matches q p then upsert (mkRecord (p_time p) (p_value p)) rows
       else rows)
    written [].

(** [range(start: lo, stop: hi)] keeps [lo <= _time < hi]. *)
Definition in_window (lo hi : Z) (r : FluxRecord) : bool :=
  (lo <=? get_time r) && (get_time r <? hi).

(** [sort(columns: ["_time"], desc: false)], a stable insertion sort. *)
Fixpoint insert_by_time (r : FluxRecord) (rows : list FluxRecord) : list FluxRecord :=
  match rows with
  | [] => [r]
  | x :: rest =>
      if get_time r <=? get_time x then r :: rows
      else x :: insert_by_time r rest
  end.

Definition sort_by_time (rows : list FluxRecord) : list FluxRecord :=
  fold_right insert_by_time [] rows.

(** [last()]: the last row of a table. *)
Fixpoint last_row (rows : list FluxRecord) : option FluxRecord :=
  match rows with
  | [] => None
  | [r] => Some r
  | _ :: rest => last_row rest
  end.

Definition flux_tables (tail : flux_tail) (rows : list FluxRecord)
  : list (list FluxRecord) :=
  match rows with
  | [] => []
  | _ =>
      match tail with
      | FluxSortTime => [sort_by_time rows]
      | FluxLast =>
          match last_row rows with
          | Some r => [[r]]
          | None => []
          end
      end
  end.

Definition seven_days : Z := 7 * us_per_day.
Definition one_day : Z := us_per_day.

(** The rows the two [SELECT ... WHERE] statements find. *)
Definition owned_rooms (room_id user_id : Z) (w : World) : list Z :=
  map r_id
    (filter (fun r => (r_id r =? room_id) && (r_user_id r =? user_id)) (rooms w)).

Definition heating_columns (s : SettingsRow) : HeatingSettings :=
  mkHeating (s_wanted_temp_day s) (s_wanted_temp_night s)
            (s_night_start s) (s_night_end s).

Definition heating_settings_rows (user_id room_id : Z) (w : World)
  : list HeatingSettings :=
  map heating_columns
    (filter (fun s => (s_user_id s =? user_id) && (s_room_id s =? room_id))
            (room_settings w)).

Section Model.

Context (E : Env).

(* --------------------------------------------------------------- *)
(** *** The clock *)

(** The server's wall clock at an instant. *)
Definition wall (utc : Z) : datetime := utc + local_utcoffset E utc.

(** [datetime.now()]: a naive reading of the server's local time. *)
Definition datetime_now : M datetime :=
  fun w => (Ok (wall (utc_at E (ticks w))), emit EvClock w).

(** [await asyncio.sleep(seconds)]. *)
Definition asyncio_sleep (seconds : Z) : M unit :=
  fun w => (Ok tt, emit (EvSleep seconds) w).

(* --------------------------------------------------------------- *)
(** *** [MySQLClient.execute_query] (database.py) *)

(** A statement either fails as a whole (the connector's error is
    re-raised after the rollback) or runs. *)
Definition execute_query {A : Type} (stmt : sql_stmt)
    (run : World -> A * World) : M A :=
  fun w =>
    let w1 := emit (EvSql stmt) w in
    if sql_fault E (ticks w) then (Raise MySQLError, w1)
    else let (a, w2) := run w1 in (Ok a, w2).

Definition select_users : M (list UserRow) :=
  execute_query SelectUsers (fun w => (users w, w)).

(** [SELECT id FROM rooms WHERE id = %s AND user_id = %s]. *)
Definition select_room (room_id user_id : Z) : M (list Z) :=
  execute_query (SelectRoom room_id user_id)
    (fun w => (owned_rooms room_id user_id w, w)).

Definition select_heating_settings (user_id room_id : Z)
  : M (list HeatingSettings) :=
  execute_query (SelectHeatingSettings user_id room_id)
    (fun w => (heating_settings_rows user_id room_id w, w)).

(** [DELETE FROM rooms WHERE id = %s]; [room_settings.room_id] references
    [rooms(id) ON DELETE CASCADE]. *)
Definition delete_from_rooms (room_id : Z) : M unit :=
  execute_query (DeleteRoom room_id)
    (fun w =>
       (tt, set_rooms
              (filter (fun r => negb (r_id r =? room_id)) (rooms w))
              (filter (fun s => negb (s_room_id s =? room_id)) (room_settings w))
              w)).

(* --------------------------------------------------------------- *)
(** *** The InfluxDB client *)

(** [write_api.write(record=point)] on the write API of main.py, built
    with [WriteOptions(batch_size=1)]: the batching client.  [write] hands
    the point to a background flush and returns; it never raises.  The
    client leaves a field that is not finite out of the line it sends, and
    a point left without a field is not sent at all, so the bucket gains
    the point exactly when its value is finite and the flush is not lost
    to a fault.  The model lets the flush happen at once. *)
Definition write_api_write (p : Point) : M unit :=
  fun w =>
    let w1 := emit (EvInfluxWrite p) w in
    if is_finite (p_value p) && negb (influx_fault E (ticks w))
    then (Ok tt, set_influx (influx w1 ++ [p]) w1)
    else (Ok tt, w1).

Definition flux_bound (now : Z) (t : flux_time) : option Z :=
  match t with
  | FluxNow => Some now
  | FluxDuration d => Some (now + d)
  | FluxTimeLit v => flux_time_literal E v
  end.

(** The answer to a query sent at the instant [now]: an unreadable time
    literal or an empty range is an error of the query. *)
Definition run_flux (now : Z) (q : FluxQuery) (written : list Point)
  : Result (list (list FluxRecord)) :=
  match flux_bound now (q_start q), flux_bound now (q_stop q) with
  | Some lo, Some hi =>
      if hi <=? lo then Raise InfluxError
      else Ok (flux_tables (q_tail q)
                 (filter (in_window lo hi) (series_of q written)))
  | _, _ => Raise InfluxError
  end.

(** [influx_client.query_api().query(flux_query)]. *)
Definition query_api_query (q : FluxQuery) : M (list (list FluxRecord)) :=
  fun w =>
    let w1 := emit (EvInfluxQuery q) w in
    if influx_fault E (ticks w) then (Raise InfluxError, w1)
    else (run_flux (utc_at E (ticks w)) q (influx w), w1).

(** [delete_api.delete(predicate, start="1970-01-01T00:00:00Z", stop)]
    for the measurement ["temperature"] and the two tags. *)
Definition delete_api_delete (room_id user_id : string) (stop : Z) : M unit :=
  fun w =>
    let w1 := emit (EvInfluxDelete room_id user_id) w in
    if influx_fault E (ticks w) then (Raise InfluxError, w1)
    else
      (Ok tt,
       set_influx
         (filter
            (fun p =>
               negb (String.eqb (p_measurement p) "temperature" &&
                     match p_room_id p with
                     | Some r => String.eqb r room_id
                     | None => false
                     end &&
                     String.eqb (p_user_id p) user_id &&
                     (0 <=? p_time p) && (p_time p <=? stop)))
            (influx w1))
         w1).

(* --------------------------------------------------------------- *)
(** *** The HTTP client and the decoded body *)

Definition requests_get (latitude longitude : float) : M json :=
  fun w =>
    let w1 := emit (EvHttpGet latitude longitude) w in
    match http_get E (ticks w) with
    | HttpFailure => (Raise RequestException, w1)
    | HttpBody data => (Ok data, w1)
    end.

Fixpoint assoc (key : string) (fields : list (string * json)) : option json :=
  match fields with
  | [] => None
  | (k, v) :: rest => if String.eqb k key then Some v else assoc key rest
  end.

(** [d.get(key, default)]; only a [dict] has [get]. *)
Definition dict_get (d : json) (key : string) (default : json) : Result json :=
  match d with
  | JObj fields =>
      Ok (match assoc key fields with Some v => v | None => default end)
  | _ => Raise AttributeError
  end.

(** [v is None]. *)
Definition is_none (v : json) : bool :=
  match v with
  | JNull => true
  | _ => false
  end.

(** [float(v)]. *)
Definition py_float (v : json) : Result float :=
  match v with
  | JBool b => Ok (if b then float_one else float_zero)
  | JInt n =>
      match float_of_int E n with
      | Some f => Ok f
      | None => Raise OverflowError
      end
  | JFloat f => Ok f
  | JStr s =>
      match float_of_str E s with
      | Some f => Ok f
      | None => Raise ValueError
      end
  | JNull | JArr _ | JObj _ => Raise TypeError
  end.

(* --------------------------------------------------------------- *)
(** *** [fetch_and_store_weather_data] *)

(** The body of the inner [try], for one row of [users]. *)
Definition store_weather (user : UserRow) : M unit :=
  data <- requests_get (u_latitude user) (u_longitude user) ;;
  current <- lift (dict_get data "current" (JObj [])) ;;
  weather_temp <- lift (dict_get current "temperature_2m" JNull) ;;
  if is_none weather_temp then ret tt
  else
    timestamp <- datetime_now ;;
    value <- lift (py_float weather_temp) ;;
    write_api_write
      (mkPoint "weather_temperature" (py_str (u_id user)) None value timestamp).

(** One turn of [while True]: the outer [try], then the sleep.  The two
    handlers only print. *)
Definition weather_cycle : M unit :=
  try_except
    (users <- select_users ;;
     if is_empty users then ret tt
     else
       for_each users
         (fun user => try_except (store_weather user) (fun _ => ret tt)))
    (fun _ => ret tt) ;;;
  asyncio_sleep 600.

(** The first [cycles] turns of the endless loop. *)
Fixpoint fetch_and_store_weather_data (cycles : nat) : M unit :=
  match cycles with
  | O => ret tt
  | S n => weather_cycle ;;; fetch_and_store_weather_data n
  end.

(* --------------------------------------------------------------- *)
(** *** [delete_room] *)

Definition delete_room (room_id : Z) (current_user : Z) : M string :=
  room <- select_room room_id current_user ;;
  if is_empty room
  then raise (HTTPException 404 "Room not found or access denied")
  else
    try_except
      (stop <- datetime_now ;;
       delete_api_delete (py_str room_id) (py_str current_user) stop)
      (fun _ => ret tt) ;;;
    delete_from_rooms room_id ;;;
    ret "Room and all temperature data deleted successfully".

(* --------------------------------------------------------------- *)
(** *** [post_temperature_batch] *)

Record TemperatureEntryBatch : Type := mkBatch
  { b_room_id : Z;
    temperatures : list float;
    timestamps : option (list string) }.

(** The timestamp of entry [i]: a first reading of the clock, replaced by
    the parsed string when there is one at [i], and by a second reading
    when that string does not parse. *)
Definition entry_timestamp (batch : TemperatureEntryBatch) (i : nat) : M datetime :=
  timestamp <- datetime_now ;;
  match timestamps batch with
  | Some ts =>
      match nth_error ts i with
      | Some s =>
          match fromisoformat E (str_replace_char "Z"%char "+00:00" s) with
          | Some parsed => ret parsed
          | None => datetime_now
          end
      | None => ret timestamp
      end
  | None => ret timestamp
  end.

(** The body of the loop over [enumerate(batch.temperatures)]. *)
Definition ingest_entry (batch : TemperatureEntryBatch) (current_user : Z)
    (i : nat) (temp : float) : M unit :=
  timestamp <- entry_timestamp batch i ;;
  write_api_write
    (mkPoint "temperature" (py_str current_user)
             (Some (py_str (b_room_id batch))) temp timestamp).

Definition post_temperature_batch (batch : TemperatureEntryBatch)
    (current_user : Z) : M string :=
  room <- select_room (b_room_id batch) current_user ;;
  if is_empty room
  then raise (HTTPException 404 "Room not found or access denied")
  else if (100 <? Z.of_nat (List.length (temperatures batch)))
  then raise (HTTPException 400 "Maximum 100 temperatures per request")
  else
    for_enumerate 0%nat (temperatures batch) (ingest_entry batch current_user) ;;;
    ret (py_str (Z.of_nat (List.length (temperatures batch)))
         ++ " temperatures recorded")%string.

(* --------------------------------------------------------------- *)
(** *** [get_room_temperatures] *)

(** [isoformat()] of the record's time is not rendered: the response
    keeps the instant. *)
Record TemperatureResponse : Type := mkResponse
  { resp_time : Z; resp_value : float; resp_room_id : Z }.

(** The two bounds of the range.  The handler splices the caller's string
    into the query text between double quotes; [FluxTimeLit v] stands for
    that text when [v] leaves the literal intact (see [plain_bound]). *)
Definition start_flux (start : option string) : flux_time :=
  match start with
  | Some v => if str_truthy start then FluxTimeLit v else FluxDuration (- one_day)
  | None => FluxDuration (- one_day)
  end.

Definition end_flux (end_ : option string) : flux_time :=
  match end_ with
  | Some v => if str_truthy end_ then FluxTimeLit v else FluxNow
  | None => FluxNow
  end.

Definition get_room_temperatures (room_id : Z) (current_user : Z)
    (start end_ : option string) : M (list TemperatureResponse) :=
  room <- select_room room_id current_user ;;
  if is_empty room
  then raise (HTTPException 404 "Room not found")
  else
    tables <- query_api_query
                (mkQuery (start_flux start) (end_flux end_) "temperature"
                         (py_str current_user) (py_str room_id) FluxSortTime) ;;
    ret (map (fun record => mkResponse (get_time record) (get_value record) room_id)
             (List.concat tables)).

(* --------------------------------------------------------------- *)
(** *** [get_heating_status] *)

(** The [isinstance] chain applied to [night_start] and [night_end]. *)
Definition to_time (v : sql_time) : Result time :=
  match v with
  | SqlTimedelta td =>
      let seconds := total_seconds_int td in
      py_time (seconds / 3600) ((seconds mod 3600) / 60) (seconds mod 60)
  | SqlStr s =>
      match strptime_HMS E s with
      | Some (h, m, sec) => py_time h m sec
      | None => Raise ValueError
      end
  | SqlTime t => Ok t
  end.

Definition is_night (night_start night_end now : time) : bool :=
  if Time.ltb night_start night_end
  then Time.leb night_start now && Time.ltb now night_end
  else Time.geb now night_start || Time.ltb now night_end.

Definition target_temp (settings : HeatingSettings) (night : bool) : float :=
  if night then wanted_temp_night settings else wanted_temp_day settings.

(** The two nested [for] loops: the value of the last record seen. *)
Definition current_temp (tables : list (list FluxRecord)) : option float :=
  fold_left (fun _ record => Some (get_value record)) (List.concat tables) None.

Definition latest_query (room_id current_user : Z) : FluxQuery :=
  mkQuery (FluxDuration (- seven_days)) FluxNow "temperature"
          (py_str current_user) (py_str room_id) FluxLast.

Definition get_heating_status (room_id : Z) (current_user : Z) : M bool :=
  room <- select_room room_id current_user ;;
  if is_empty room
  then raise (HTTPException 404 "Room not found")
  else
    settings <- select_heating_settings current_user room_id ;;
    match settings with
    | [] => raise (HTTPException 404 "Room settings not found")
    | settings :: _ =>
        now <- datetime_now ;;
        let now := datetime_time now in
        night_start <- lift (to_time (night_start settings)) ;;
        night_end <- lift (to_time (night_end settings)) ;;
        let target := target_temp settings (is_night night_start night_end now) in
        tables <- query_api_query (latest_query room_id current_user) ;;
        match current_temp tables with
        | None =>
            raise (HTTPException 404 "No temperature data found for this room")
        | Some current => ret (float_lt current target)
        end
    end.

End Model.

(* ================================================================= *)
(** ** A household to run the handlers on *)

Module Scenario.

(** 21.0, 18.0, 17.5 and 19.0 as binary64 values. *)
Definition t21_0 : float := S754_finite false (21 * 2 ^ 48) (-48).
Definition t18_0 : float := S754_finite false (18 * 2 ^ 48) (-48).
Definition t17_5 : float := S754_finite false (35 * 2 ^ 47) (-48).
Definition t19_0 : float := S754_finite false (19 * 2 ^ 48) (-48).

Definition hours (h : Z) : Z := h * 3600 * us_per_second.
Definition minutes (m : Z) : Z := m * 60 * us_per_second.

(** Midnight UTC of some day, and 23:30 on it. *)
Definition midnight : Z := 20000 * us_per_day.
Definition half_past_eleven : Z := midnight + hours 23 + minutes 30.

Definition weather_body (temp : json) : http_reply :=
  HttpBody (JObj [("current", JObj [("temperature_2m", temp)])]).

(** A server on UTC whose clock advances one second per interaction,
    without faults; the provider always answers 17.5. *)
Definition env : Env :=
  mkEnv (fun n => half_past_eleven + Z.of_nat n * us_per_second)
        (fun _ => 0)
        (fun _ => false)
        (fun _ => false)
        (fun _ => weather_body (JFloat t17_5))
        (fun _ => None)
        (fun _ => None)
        (fun _ => None)
        (fun _ => None)
        (fun _ => None)
        (fun _ _ => 0).

(** The default schedule of [create_room]: 21.0 by day, 18.0 by night,
    22:00 to 06:00, [Europe/Berlin]. *)
Definition default_settings (user room : Z) : SettingsRow :=
  mkSettings user room "Europe/Berlin" t21_0 t18_0
             (SqlTimedelta (hours 22)) (SqlTimedelta (hours 6)).

Definition sample (user room : Z) (value : float) (t : Z) : Point :=
  mkPoint "temperature" (py_str user) (Some (py_str room)) value t.

(** User 7 owns room 1 (with settings and two samples) and room 2 (with
    settings only); room 3 has lost its settings row. *)
Definition world : World :=
  mkWorld
    [mkUser 7 float_one float_one]
    [mkRoom 1 7 "Living room"; mkRoom 2 7 "Attic"; mkRoom 3 7 "Shed"]
    [default_settings 7 1; default_settings 7 2]
    [sample 7 1 t19_0 (half_past_eleven - hours 2);
     sample 7 1 t17_5 (half_past_eleven - hours 1)]
    [].

End Scenario.

(* ================================================================= *)
(** ** The readings of the clock a night test can use *)

(** The time of day of an instant in the zone named [tz]: the reading that
    the specification's target resolver (4.1, step 1) asks for. *)
Definition time_in_zone (E : Env) (tz : string) (utc : Z) : time :=
  datetime_time (utc + zone_utcoffset E tz utc).

(** The time of day of an instant on the server: [datetime.now().time()]. *)
Definition time_on_server (E : Env) (utc : Z) : time :=
  datetime_time (wall E utc).

(** The table [room_settings] with its [timezone] column rewritten. *)
Definition set_timezone (f : SettingsRow -> string) (s : SettingsRow) : SettingsRow :=
  mkSettings (s_user_id s) (s_room_id s) (f s)
             (s_wanted_temp_day s) (s_wanted_temp_night s)
             (s_night_start s) (s_night_end s).

Definition retimezone (f : SettingsRow -> string) (w : World) : World :=
  mkWorld (users w) (rooms w) (map (set_timezone f) (room_settings w))
          (influx w) (trace w).

(** A room in Tokyo, watched from a server on UTC at 14:00. *)
Module Tokyo.

Definition two_pm : Z := Scenario.midnight + Scenario.hours 14.

Definition env : Env :=
  mkEnv (fun n => two_pm + Z.of_nat n * us_per_second)
        (fun _ => 0)
        (fun _ => false)
        (fun _ => false)
        (fun _ => HttpFailure)
        (fun _ => None)
        (fun _ => None)
        (fun _ => None)
        (fun _ => None)
        (fun _ => None)
        (fun tz _ => if String.eqb tz "Asia/Tokyo" then Scenario.hours 9 else 0).

Definition settings : SettingsRow :=
  mkSettings 7 1 "Asia/Tokyo" Scenario.t21_0 Scenario.t18_0
             (SqlTimedelta (Scenario.hours 22)) (SqlTimedelta (Scenario.hours 6)).

Definition world : World :=
  mkWorld
    [mkUser 7 float_one float_one]
    [mkRoom 1 7 "Washitsu"]
    [settings]
    [Scenario.sample 7 1 Scenario.t19_0 (two_pm - Scenario.hours 1)]
    [].

End Tokyo.

(** Environments that differ from a given one in a single answer. *)
Definition with_influx_fault (f : nat -> bool) (E : Env) : Env :=
  mkEnv (utc_at E) (local_utcoffset E) (sql_fault E) f (http_get E)
        (strptime_HMS E) (fromisoformat E) (flux_time_literal E)
        (float_of_int E) (float_of_str E) (zone_utcoffset E).

Definition with_http_get (f : nat -> http_reply) (E : Env) : Env :=
  mkEnv (utc_at E) (local_utcoffset E) (sql_fault E) (influx_fault E) f
        (strptime_HMS E) (fromisoformat E) (flux_time_literal E)
        (float_of_int E) (float_of_str E) (zone_utcoffset E).

Definition with_fromisoformat (f : string -> option datetime) (E : Env) : Env :=
  mkEnv (utc_at E) (local_utcoffset E) (sql_fault E) (influx_fault E) (http_get E)
        (strptime_HMS E) f (flux_time_literal E)
        (float_of_int E) (float_of_str E) (zone_utcoffset E).

Definition with_flux_time_literal (f : string -> option Z) (E : Env) : Env :=
  mkEnv (utc_at E) (local_utcoffset E) (sql_fault E) (influx_fault E) (http_get E)
        (strptime_HMS E) (fromisoformat E) f
        (float_of_int E) (float_of_str E) (zone_utcoffset E).

(** The household with the bucket unreachable. *)
Definition bucket_down : Env := with_influx_fault (fun _ => true) Scenario.env.

(** A batch of 101 readings for room 1. *)
Definition oversized_batch : TemperatureEntryBatch :=
  mkBatch 1 (repeat Scenario.t19_0 101) None.

(* ================================================================= *)
(** ** The window of a range query *)

(** The series of a room, whatever the bounds and the tail of the query. *)
Definition room_series (room user : Z) (w : World) : list FluxRecord :=
  series_of (latest_query room user) (influx w).

(** The window as the specification words it (4.2): an omitted [end] is
    "now", an omitted [start] is 24 hours before the end bound. *)
Definition specified_window (E : Env) (now : Z) (start end_ : option string)
  : option (Z * Z) :=
  match flux_bound E now (end_flux end_) with
  | Some hi =>
      if str_truthy start
      then match flux_bound E now (start_flux start) with
           | Some lo => Some (lo, hi)
           | None => None
           end
      else Some (hi - one_day, hi)
  | None => None
  end.

(** A client asking at 23:30 for what ended an hour before, while the one
    stored reading is 24 hours and 30 minutes old. *)
Module HourAgo.

Definition literal : string := "2024-10-04T22:30:00Z".

Definition env : Env :=
  with_flux_time_literal
    (fun v => if String.eqb v literal
              then Some (Scenario.half_past_eleven - Scenario.hours 1)
              else None)
    Scenario.env.

Definition reading_time : Z :=
  Scenario.half_past_eleven - Scenario.hours 24 - Scenario.minutes 30.

Definition world : World :=
  mkWorld
    [mkUser 7 float_one float_one]
    [mkRoom 1 7 "Living room"]
    [Scenario.default_settings 7 1]
    [Scenario.sample 7 1 Scenario.t19_0 reading_time]
    [].

End HourAgo.

(* ================================================================= *)
(** ** The timestamps of a batch *)

(** The string supplied for entry [i], and what it parses to. *)
Definition supplied (batch : TemperatureEntryBatch) (i : nat) : option string :=
  match timestamps batch with
  | Some ts => nth_error ts i
  | None => None
  end.

Definition parsed (E : Env) (batch : TemperatureEntryBatch) (i : nat)
  : option datetime :=
  match supplied batch i with
  | Some s => fromisoformat E (str_replace_char "Z"%char "+00:00" s)
  | None => None
  end.




(** Three readings for room 1: the first with a timestamp that parses, the
    second with one that does not, the third with none. *)
Module Batch.

Definition env : Env :=
  with_fromisoformat
    (fun s => if String.eqb s "2024-10-04T12:00:00+00:00"
              then Some (Scenario.midnight + Scenario.hours 12)
              else None)
    Scenario.env.

Definition batch : TemperatureEntryBatch :=
  mkBatch 1 [Scenario.t19_0; Scenario.t18_0; Scenario.t17_5]
          (Some ["2024-10-04T12:00:00Z"; "yesterday"]).

End Batch.

(* ================================================================= *)
(** ** One location of a weather cycle *)

(** The temperature a reply carries, when it carries one: the request did
    not fail, the body and its ["current"] member are objects, and
    ["temperature_2m"] is present and not [null]. *)
Definition reply_temperature (r : http_reply) : option json :=
  match r with
  | HttpFailure => None
  | HttpBody data =>
      match dict_get data "current" (JObj []) with
      | Ok current =>
          match dict_get current "temperature_2m" JNull with
          | Ok t => if is_none t then None else Some t
          | Raise _ => None
          end
      | Raise _ => None
      end
  end.

(** The sample of a location whose request is interaction [k]: there is one
    exactly when the reply carries a temperature, the temperature converts
    to a finite float and the write (interaction [k + 2]) is not lost. *)
Definition weather_sample (E : Env) (user : UserRow) (k : nat) : option Point :=
  match reply_temperature (http_get E k) with
  | Some t =>
      match py_float E t with
      | Ok value =>
          if is_finite value && negb (influx_fault E (2 + k))
          then Some (mkPoint "weather_temperature" (py_str (u_id user)) None
                             value (wall E (utc_at E (1 + k))))
          else None
      | Raise _ => None
      end
  | None => None
  end.

(** The number of interactions a location takes: the request, then the
    clock, then the write. *)
Definition weather_steps (E : Env) (k : nat) : nat :=
  match reply_temperature (http_get E k) with
  | Some t =>
      match py_float E t with
      | Ok _ => 3
      | Raise _ => 2
      end
  | None => 1
  end.

Definition option_list {A : Type} (o : option A) : list A :=
  match o with
  | Some a => [a]
  | None => []
  end.

(** The samples of a cycle whose first request is interaction [k]: every
    location in turn, each giving its sample or nothing. *)
Fixpoint cycle_samples (E : Env) (locations : list UserRow) (k : nat) : list Point :=
  match locations with
  | [] => []
  | user :: rest =>
      option_list (weather_sample E user k)
        ++ cycle_samples E rest (weather_steps E k + k)
  end.

(** The points handed to [write_api.write], as recorded in a trace, and
    those among a list of points that the client sends on. *)
Definition writes (tr : list Event) : list Point :=
  flat_map (fun ev => match ev with
                      | EvInfluxWrite p => [p]
                      | _ => []
                      end) tr.


(** The requests and the sleeps recorded in a trace. *)
Definition http_requests (tr : list Event) : list (float * float) :=
  flat_map (fun ev => match ev with
                      | EvHttpGet la lo => [(la, lo)]
                      | _ => []
                      end) tr.

Definition sleeps (tr : list Event) : list Z :=
  flat_map (fun ev => match ev with
                      | EvSleep s => [s]
                      | _ => []
                      end) tr.

Definition coordinates (user : UserRow) : float * float :=
  (u_latitude user, u_longitude user).

(** Three users; the provider fails on the request for the second. *)
Module ThreeLocations.

Definition env : Env :=
  with_http_get
    (fun n => if Nat.eqb n 4 then HttpFailure
              else Scenario.weather_body (JFloat Scenario.t17_5))
    Scenario.env.

Definition world : World :=
  mkWorld
    [mkUser 1 float_one float_zero;
     mkUser 2 float_zero float_one;
     mkUser 3 float_one float_one]
    [] [] [] [].

End ThreeLocations.

(* ================================================================= *)
(** ** Notions the statements use *)

(** A [TIME] value that is already a [datetime.time] is a well-formed one. *)
Definition sql_time_wf (v : sql_time) : Prop :=
  match v with
  | SqlTime t => wf t
  | _ => True
  end.

(** Rows of a table compared by their time. *)
Definition time_lt (a b : FluxRecord) : Prop := get_time a < get_time b.
Definition time_le (a b : FluxRecord) : Prop := get_time a <= get_time b.

(** The latest sample of a table: one of its rows, and none is later. *)
Definition latest_sample (rows : list FluxRecord) (r : FluxRecord) : Prop :=
  In r rows /\ forall r', In r' rows -> get_time r' <= get_time r.

(** The rows of the room's series inside the seven days before [now]. *)
Definition lookback_rows (room_id current_user : Z) (now : Z) (w : World)
  : list FluxRecord :=
  filter (in_window (now - seven_days) now)
         (series_of (latest_query room_id current_user) (influx w)).

(** The world after the four interactions of a decision that reaches the
    bucket. *)
Definition after_decision (room user : Z) (w : World) : World :=
  emit (EvInfluxQuery (latest_query room user))
    (emit EvClock
       (emit (EvSql (SelectHeatingSettings user room))
          (emit (EvSql (SelectRoom room user)) w))).

(** No point of the room's series was written with a time in the seven
    days before [now]. *)
Definition no_sample_in_lookback (room user : Z) (now : Z) (w : World) : Prop :=
  forall p, In p (influx w) ->
            point_matches (latest_query room user) p = true ->
            ~ (now - seven_days <= p_time p < now).

(** The inner [try] of the weather loop with its handler. *)
Definition guarded_store_weather (E : Env) (user : UserRow) : M unit :=
  try_except (store_weather E user) (fun _ => ret tt).

(* ================================================================= *)
(** ** Further handlers of main.py *)

(** [TemperatureEntry] (models.py). *)
Record TemperatureEntry : Type := mkEntry
  { e_room_id : Z; temperature : float }.

(** [post_temperature]: the ownership check, one reading of the clock,
    one write. *)
Definition post_temperature (E : Env) (data : TemperatureEntry)
    (current_user : Z) : M string :=
  room <- select_room E (e_room_id data) current_user ;;
  if is_empty room
  then raise (HTTPException 404 "Room not found or access denied")
  else
    timestamp <- datetime_now E ;;
    write_api_write E
      (mkPoint "temperature" (py_str current_user)
               (Some (py_str (e_room_id data))) (temperature data) timestamp) ;;;
    ret "Temperature recorded".

(** The two nested [for] loops of [get_latest_temperature] return at the
    first record they meet. *)
Definition first_record (tables : list (list FluxRecord)) : option FluxRecord :=
  match List.concat tables with
  | record :: _ => Some record
  | [] => None
  end.

(** [get_latest_temperature]; its Flux text is that of the heating
    decision ([range(start: -7d)], the three filters, [last()]). *)
Definition get_latest_temperature (E : Env) (room_id : Z) (current_user : Z)
  : M TemperatureResponse :=
  room <- select_room E room_id current_user ;;
  if is_empty room
  then raise (HTTPException 404 "Room not found")
  else
    tables <- query_api_query E (latest_query room_id current_user) ;;
    match first_record tables with
    | Some record =>
        ret (mkResponse (get_time record) (get_value record) room_id)
    | None => raise (HTTPException 404 "No temperature data found")
    end.

(* ================================================================= *)
(** ** The dashboard's own target (dashboard.py) *)

(** The settings dictionary the dashboard receives from the API: the two
    bounds are strings. *)
Record DashboardSettings : Type := mkDashboard
  { d_wanted_temp_day : float;
    d_wanted_temp_night : float;
    d_night_start : string;
    d_night_end : string }.

(** [datetime.strptime(s, "%H:%M:%S").time()]. *)
Definition strptime_time (E : Env) (s : string) : Result time :=
  match strptime_HMS E s with
  | Some (h, m, sec) => py_time h m sec
  | None => Raise ValueError
  end.

(** [get_current_target_temp], run against the clock of the process that
    renders the dashboard. *)
Definition get_current_target_temp (E : Env) (settings : DashboardSettings)
  : M float :=
  now <- datetime_now E ;;
  let now := datetime_time now in
  night_start <- lift (strptime_time E (d_night_start settings)) ;;
  night_end <- lift (strptime_time E (d_night_end settings)) ;;
  let is_night :=
    if Time.ltb night_start night_end
    then Time.leb night_start now && Time.ltb now night_end
    else Time.geb now night_start || Time.ltb now night_end in
  if is_night then ret (d_wanted_temp_night settings)
  else ret (d_wanted_temp_day settings).

(* ================================================================= *)
(** ** Waiting for the database (sql.py) *)




(* ================================================================= *)
(** ** What handlers leave alone *)

(** The relational tables and the bucket are the same in two worlds. *)
Definition same_stores (w w' : World) : Prop :=
  users w' = users w /\ rooms w' = rooms w /\
  room_settings w' = room_settings w /\ influx w' = influx w.

(** The shape of the points this program writes: a room reading carries a
    room tag, a weather sample does not. *)
Definition well_tagged (p : Point) : Prop :=
  (p_measurement p = "temperature" /\ p_room_id p <> None) \/
  (p_measurement p = "weather_temperature" /\ p_room_id p = None).

(** A point written by [user] for [room]. *)
Definition written_for (user room : Z) (p : Point) : Prop :=
  p_measurement p = "temperature" /\
  p_user_id p = py_str user /\
  p_room_id p = Some (py_str room).

(** The bucket after a range-delete for a room that went through. *)
Definition without_room (room user : Z) (stop : Z) (pts : list Point) : list Point :=
  filter (fun p => negb (String.eqb (p_measurement p) "temperature" &&
                         match p_room_id p with
                         | Some r => String.eqb r (py_str room)
                         | None => false
                         end &&
                         String.eqb (p_user_id p) (py_str user) &&
                         (0 <=? p_time p) && (p_time p <=? stop)))
         pts.

(** A dashboard process whose [strptime] reads the two default bounds. *)
Module Dashboard.

Definition env : Env :=
  mkEnv (utc_at Scenario.env) (local_utcoffset Scenario.env)
        (sql_fault Scenario.env) (influx_fault Scenario.env)
        (http_get Scenario.env)
        (fun s => if String.eqb s "22:00:00" then Some (22, 0, 0)
                  else if String.eqb s "06:00:00" then Some (6, 0, 0)
                  else None)
        (fromisoformat Scenario.env) (flux_time_literal Scenario.env)
        (float_of_int Scenario.env) (float_of_str Scenario.env)
        (zone_utcoffset Scenario.env).

Definition settings : DashboardSettings :=
  mkDashboard Scenario.t21_0 Scenario.t18_0 "22:00:00" "06:00:00".

End Dashboard.

(** A computation whose every run, returning or raising, takes a world to
    one related to it by [R]. *)
Definition respects (R : World -> World -> Prop) {A : Type} (c : M A) : Prop :=
  forall w, R w (snd (c w)).

(** The bucket keeps its shape from one world to the next. *)
Definition keeps_tagging (w w' : World) : Prop :=
  Forall well_tagged (influx w) -> Forall well_tagged (influx w').

(** Every room query finds the same series in the two worlds. *)
Definition same_room_series (w w' : World) : Prop :=
  forall q : FluxQuery, series_of q (influx w') = series_of q (influx w).

(** The household with the database unreachable, and with a [night_end]
    that MySQL rounded up to 24:00:00. *)
Definition database_down : Env :=
  mkEnv (utc_at Scenario.env) (local_utcoffset Scenario.env)
        (fun _ => true) (influx_fault Scenario.env) (http_get Scenario.env)
        (strptime_HMS Scenario.env) (fromisoformat Scenario.env)
        (flux_time_literal Scenario.env) (float_of_int Scenario.env)
        (float_of_str Scenario.env) (zone_utcoffset Scenario.env).

Definition midnight_end_world : World :=
  mkWorld
    [mkUser 7 float_one float_one]
    [mkRoom 1 7 "Living room"]
    [mkSettings 7 1 "Europe/Berlin" Scenario.t21_0 Scenario.t18_0
                (SqlTimedelta (Scenario.hours 22)) (SqlTimedelta (Scenario.hours 24))]
    [Scenario.sample 7 1 Scenario.t17_5 (Scenario.half_past_eleven - Scenario.hours 1)]
    [].

(** The world with one more point in the bucket. *)
Definition add_point (p : Point) (w : World) : World :=
  set_influx (influx w ++ [p]) w.

(** [c in s]. *)
Fixpoint has_char (c : ascii) (s : string) : bool :=
  match s with
  | EmptyString => false
  | String x rest => Ascii.eqb x c || has_char c rest
  end.

(** A caller's bound that [f'time(v: "{start}")'] leaves a string literal
    of the Flux text: it holds no double quote, no backslash and no dollar
    sign.  The handler splices the bound into the query text as it is, so
    any other bound can end the literal and rewrite the rest of the
    pipeline; the model of the query covers plain bounds only. *)
Definition plain_bound (bound : option string) : bool :=
  match bound with
  | None => true
  | Some v =>
      negb (has_char (ascii_of_nat 34) v) &&
      negb (has_char (ascii_of_nat 92) v) &&
      negb (has_char (ascii_of_nat 36) v)
  end.

(* ================================================================= *)
(** * Properties *)

(** ** Times of day *)

Module TimeFacts.

Lemma in_range_bounds h m s us :
  in_range h m s us = true ->
  0 <= h <= 23 /\ 0 <= m <= 59 /\ 0 <= s <= 59 /\ 0 <= us <= 999999.
Proof.
  unfold in_range. rewrite !andb_true_iff, !Z.leb_le. lia.
Qed.

(** On well-formed times the tuple order is the order of the positions
    in the day. *)
Lemma cmp_of_day a b :
  wf a -> wf b -> cmp a b = (of_day a ?= of_day b).
Proof.
  unfold wf; intros Ha Hb.
  apply in_range_bounds in Ha; apply in_range_bounds in Hb.
  destruct a as [h1 m1 s1 u1], b as [h2 m2 s2 u2]; cbn in *.
  unfold cmp, of_day; cbn.
  destruct (Z.compare_spec h1 h2) as [->| |];
    [ destruct (Z.compare_spec m1 m2) as [->| |];
      [ destruct (Z.compare_spec s1 s2) as [->| |];
        [ destruct (Z.compare_spec u1 u2) as [->| |] | | ] | | ] | | ];
    symmetry;
    first [ apply Z.compare_eq_iff | apply Z.compare_lt_iff | apply Z.compare_gt_iff ];
    lia.
Qed.

Lemma ltb_lt a b : wf a -> wf b -> (Time.ltb a b = true <-> Time.lt a b).
Proof.
  intros Ha Hb. unfold Time.ltb, Time.lt. rewrite (cmp_of_day a b Ha Hb).
  destruct (Z.compare_spec (of_day a) (of_day b)); split; intros; try lia; try discriminate; reflexivity.
Qed.

Lemma leb_le a b : wf a -> wf b -> (Time.leb a b = true <-> Time.le a b).
Proof.
  intros Ha Hb. unfold Time.leb, Time.le. rewrite (cmp_of_day a b Ha Hb).
  destruct (Z.compare_spec (of_day a) (of_day b)); split; intros; try lia; try discriminate; reflexivity.
Qed.

Lemma geb_le a b : wf a -> wf b -> (Time.geb a b = true <-> Time.le b a).
Proof.
  intros Ha Hb. unfold Time.geb, Time.le. rewrite (cmp_of_day a b Ha Hb).
  destruct (Z.compare_spec (of_day a) (of_day b)); split; intros; try lia; try discriminate; reflexivity.
Qed.

Lemma cmp_refl a : cmp a a = Eq.
Proof. unfold cmp. now rewrite !Z.compare_refl. Qed.

Lemma of_day_inj a b : wf a -> wf b -> of_day a = of_day b -> a = b.
Proof.
  unfold wf; intros Ha Hb.
  apply in_range_bounds in Ha; apply in_range_bounds in Hb.
  destruct a as [h1 m1 s1 u1], b as [h2 m2 s2 u2]; cbn in *.
  unfold of_day; cbn. intros H.
  assert (h1 = h2) by lia. subst.
  assert (m1 = m2) by lia. subst.
  assert (s1 = s2) by lia. subst.
  assert (u1 = u2) by lia. now subst.
Qed.

Lemma py_time_wf h m s t : py_time h m s = Ok t -> wf t.
Proof.
  unfold py_time, wf. destruct (in_range h m s 0) eqn:R; intros [=]; subst. exact R.
Qed.

Lemma datetime_time_wf d : wf (datetime_time d).
Proof.
  unfold wf, datetime_time, in_range, us_per_day, us_per_second; cbn.
  assert (0 <= d mod 86400000000 < 86400000000) by (apply Z.mod_pos_bound; lia).
  rewrite !andb_true_iff, !Z.leb_le.
  repeat split.
  - apply Z.div_pos; lia.
  - assert ((d mod 86400000000) / 3600000000 < 24) by (apply Z.div_lt_upper_bound; lia). lia.
  - apply Z.mod_pos_bound; lia.
  - assert (0 <= (d mod 86400000000 / 60000000) mod 60 < 60) by (apply Z.mod_pos_bound; lia). lia.
  - apply Z.mod_pos_bound; lia.
  - assert (0 <= (d mod 86400000000 / 1000000) mod 60 < 60) by (apply Z.mod_pos_bound; lia). lia.
  - apply Z.mod_pos_bound; lia.
  - assert (0 <= (d mod 86400000000) mod 1000000 < 1000000) by (apply Z.mod_pos_bound; lia). lia.
Qed.

End TimeFacts.

(** ** The night window *)

Lemma to_time_wf (E : Env) (v : sql_time) (t : time) :
  sql_time_wf v -> to_time E v = Ok t -> wf t.
Proof.
  destruct v as [td | s | t0]; cbn; intros Hv H.
  - eapply TimeFacts.py_time_wf; eassumption.
  - destruct (strptime_HMS E s) as [[[h m] sec] |]; [| discriminate].
    eapply TimeFacts.py_time_wf; eassumption.
  - now injection H as <-.
Qed.

Lemma is_night_spec (ns ne now : time) :
  wf ns -> wf ne -> wf now ->
  (Time.lt ns ne ->
     (is_night ns ne now = true <-> Time.le ns now /\ Time.lt now ne)) /\
  (~ Time.lt ns ne ->
     (is_night ns ne now = true <-> Time.le ns now \/ Time.lt now ne)).
Proof.
  intros Hs He Hn. unfold is_night. split; intros Hlt.
  - apply (TimeFacts.ltb_lt ns ne Hs He) in Hlt. rewrite Hlt.
    rewrite andb_true_iff, (TimeFacts.leb_le ns now Hs Hn), (TimeFacts.ltb_lt now ne Hn He).
    tauto.
  - destruct (Time.ltb ns ne) eqn:L.
    + exfalso. apply Hlt. now apply (TimeFacts.ltb_lt ns ne Hs He).
    + rewrite orb_true_iff, (TimeFacts.geb_le now ns Hn Hs), (TimeFacts.ltb_lt now ne Hn He).
      tauto.
Qed.

(** C1. For every settings row whose [night_start] and [night_end] convert
    to the times [ns] and [ne], and every time of day [now]: when [ns < ne]
    it is night exactly when [ns <= now < ne]; otherwise (the window wraps)
    it is night exactly when [now >= ns] or [now < ne].  The window is
    closed at [ns] (night at [ns] itself) and open at [ne] (day at [ne],
    whenever [ne] differs from [ns]).  The target is [wanted_temp_night]
    when night and [wanted_temp_day] otherwise. *)
Theorem night_window_membership (E : Env) (settings : HeatingSettings)
    (ns ne now : time) :
  sql_time_wf (night_start settings) ->
  sql_time_wf (night_end settings) ->
  wf now ->
  to_time E (night_start settings) = Ok ns ->
  to_time E (night_end settings) = Ok ne ->
  (Time.lt ns ne ->
     (is_night ns ne now = true <-> Time.le ns now /\ Time.lt now ne)) /\
  (~ Time.lt ns ne ->
     (is_night ns ne now = true <-> Time.le ns now \/ Time.lt now ne)) /\
  is_night ns ne ns = true /\
  (ns <> ne -> is_night ns ne ne = false) /\
  (is_night ns ne now = true ->
     target_temp settings (is_night ns ne now) = wanted_temp_night settings) /\
  (is_night ns ne now = false ->
     target_temp settings (is_night ns ne now) = wanted_temp_day settings).
Proof.
  intros Hvs Hve Hnow Hs He.
  pose proof (to_time_wf E _ _ Hvs Hs) as Wns.
  pose proof (to_time_wf E _ _ Hve He) as Wne.
  destruct (is_night_spec ns ne now Wns Wne Hnow) as [Hplain Hwrap].
  split; [exact Hplain |]. split; [exact Hwrap |].
  split; [| split; [| split]].
  - destruct (Z_lt_dec (of_day ns) (of_day ne)) as [L | L].
    + apply (proj1 (is_night_spec ns ne ns Wns Wne Wns)); [exact L |].
      unfold Time.le, Time.lt in *. lia.
    + apply (proj2 (is_night_spec ns ne ns Wns Wne Wns)); [exact L |].
      left. unfold Time.le. lia.
  - intros Hneq.
    destruct (is_night ns ne ne) eqn:N; [exfalso | reflexivity].
    destruct (Z_lt_dec (of_day ns) (of_day ne)) as [L | L].
    + apply (proj1 (is_night_spec ns ne ne Wns Wne Wne) L) in N.
      unfold Time.lt in N. lia.
    + apply (proj2 (is_night_spec ns ne ne Wns Wne Wne) L) in N.
      unfold Time.le, Time.lt in *.
      assert (of_day ns = of_day ne) by lia.
      apply Hneq. now apply TimeFacts.of_day_inj.
  - intros ->. reflexivity.
  - intros ->. reflexivity.
Qed.

(** C4. When [night_start] and [night_end] convert to the same time, the
    test takes the wrap branch and answers night for every time of day, so
    the target is always [wanted_temp_night]. *)
Theorem equal_bounds_always_night (E : Env) (settings : HeatingSettings)
    (t now : time) :
  to_time E (night_start settings) = Ok t ->
  to_time E (night_end settings) = Ok t ->
  Time.ltb t t = false /\
  is_night t t now = true /\
  target_temp settings (is_night t t now) = wanted_temp_night settings.
Proof.
  intros _ _.
  assert (L : Time.ltb t t = false)
    by (unfold Time.ltb; now rewrite TimeFacts.cmp_refl).
  assert (N : is_night t t now = true).
  { unfold is_night. rewrite L. unfold Time.geb, Time.ltb.
    destruct (cmp now t); reflexivity. }
  now rewrite N.
Qed.

(** ** The stored series *)

Lemma upsert_In r rows x : In x (upsert r rows) -> x = r \/ In x rows.
Proof.
  induction rows as [| y rest IH]; cbn.
  - intros [<- | []]. now left.
  - destruct (get_time r <? get_time y).
    + intros [<- | H]; [now left | now right].
    + destruct (get_time r =? get_time y).
      * intros [<- | H]; [now left | right; now right].
      * intros [<- | H]; [right; now left |].
        destruct (IH H) as [-> | H']; [now left | right; now right].
Qed.

Lemma upsert_sorted r rows :
  StronglySorted time_lt rows -> StronglySorted time_lt (upsert r rows).
Proof.
  induction 1 as [| y rest Hs IH Hall]; cbn.
  - repeat constructor.
  - destruct (Z.ltb_spec (get_time r) (get_time y)) as [L | L].
    + constructor; [now constructor |].
      constructor; [exact L |].
      rewrite Forall_forall in *. intros x Hx. specialize (Hall x Hx).
      unfold time_lt in *. lia.
    + destruct (Z.eqb_spec (get_time r) (get_time y)) as [Eq | Ne].
      * constructor; [exact Hs |].
        rewrite Forall_forall in *. intros x Hx. specialize (Hall x Hx).
        unfold time_lt in *. lia.
      * constructor; [exact IH |].
        rewrite Forall_forall in *. intros x Hx.
        destruct (upsert_In _ _ _ Hx) as [-> | Hin].
        -- unfold time_lt. lia.
        -- now apply Hall.
Qed.

Lemma series_of_sorted q written : StronglySorted time_lt (series_of q written).
Proof.
  unfold series_of.
  assert (G : forall acc, StronglySorted time_lt acc ->
            StronglySorted time_lt
              (fold_left
                 (fun rows p =>
                    if point_matches q p
                    then upsert (mkRecord (p_time p) (p_value p)) rows
                    else rows) written acc)).
  { induction written as [| p rest IH]; cbn; intros acc Hacc; [exact Hacc |].
    apply IH. destruct (point_matches q p); [now apply upsert_sorted | exact Hacc]. }
  apply G. constructor.
Qed.

Lemma filter_sorted (f : FluxRecord -> bool) rows :
  StronglySorted time_lt rows -> StronglySorted time_lt (filter f rows).
Proof.
  induction 1 as [| y rest Hs IH Hall]; cbn; [constructor |].
  destruct (f y); [| exact IH].
  constructor; [exact IH |].
  rewrite Forall_forall in *. intros x Hx.
  apply filter_In in Hx. now apply Hall.
Qed.

Lemma last_row_In rows r : last_row rows = Some r -> In r rows.
Proof.
  induction rows as [| x rest IH]; [discriminate |].
  destruct rest as [| y rest'].
  - cbn. intros [= ->]. now left.
  - intros H. right. apply IH. exact H.
Qed.

Lemma last_row_max rows r :
  StronglySorted time_lt rows -> last_row rows = Some r ->
  forall x, In x rows -> x = r \/ time_lt x r.
Proof.
  induction 1 as [| y rest Hs IH Hall]; [discriminate |].
  destruct rest as [| z rest'].
  - cbn. intros [= ->] x [-> | []]. now left.
  - intros H x [-> | Hx].
    + right. rewrite Forall_forall in Hall. apply Hall.
      now apply last_row_In.
    + now apply IH.
Qed.

Lemma last_row_latest rows r :
  StronglySorted time_lt rows -> latest_sample rows r -> last_row rows = Some r.
Proof.
  intros Hs [Hin Hmax].
  destruct (last_row rows) as [r0 |] eqn:L.
  - destruct (last_row_max rows r0 Hs L r Hin) as [-> | Hlt]; [reflexivity |].
    pose proof (Hmax r0 (last_row_In _ _ L)). unfold time_lt in Hlt. lia.
  - destruct rows as [| x rest]; [destruct Hin |].
    exfalso. clear - L. revert x L.
    induction rest as [| y rest IH]; intros x L; [discriminate |].
    apply (IH y). exact L.
Qed.

(** A table with a row has a latest sample. *)
Lemma latest_sample_exists rows :
  StronglySorted time_lt rows -> rows <> [] -> exists r, latest_sample rows r.
Proof.
  intros Hs Hne.
  destruct (last_row rows) as [r |] eqn:L.
  - exists r. split; [now apply last_row_In |].
    intros r' Hr'. destruct (last_row_max rows r Hs L r' Hr') as [-> | Hlt].
    + lia.
    + unfold time_lt in Hlt. lia.
  - exfalso. destruct rows as [| x rest]; [now apply Hne |].
    clear - L. revert x L.
    induction rest as [| y rest IH]; intros x L; [discriminate |].
    apply (IH y). exact L.
Qed.

Lemma lookback_rows_sorted room user now w :
  StronglySorted time_lt (lookback_rows room user now w).
Proof. apply filter_sorted, series_of_sorted. Qed.

(** ** Single steps of the handlers *)

Lemma ticks_emit ev w : ticks (emit ev w) = S (ticks w).
Proof. unfold ticks, emit; cbn. rewrite length_app; cbn. lia. Qed.

Lemma ticks_set_influx pts w : ticks (set_influx pts w) = ticks w.
Proof. reflexivity. Qed.

Lemma trace_set_influx pts w : trace (set_influx pts w) = trace w.
Proof. reflexivity. Qed.

Lemma influx_set_influx pts w : influx (set_influx pts w) = pts.
Proof. reflexivity. Qed.

Lemma influx_emit ev w : influx (emit ev w) = influx w.
Proof. reflexivity. Qed.

Lemma select_room_run (E : Env) room user w :
  sql_fault E (ticks w) = false ->
  select_room E room user w =
    (Ok (owned_rooms room user w), emit (EvSql (SelectRoom room user)) w).
Proof.
  intros H. unfold select_room, execute_query. now rewrite H.
Qed.

Lemma select_room_fault (E : Env) room user w :
  sql_fault E (ticks w) = true ->
  select_room E room user w =
    (Raise MySQLError, emit (EvSql (SelectRoom room user)) w).
Proof.
  intros H. unfold select_room, execute_query. now rewrite H.
Qed.

Lemma select_heating_settings_run (E : Env) user room w :
  sql_fault E (ticks w) = false ->
  select_heating_settings E user room w =
    (Ok (heating_settings_rows user room w),
     emit (EvSql (SelectHeatingSettings user room)) w).
Proof.
  intros H. unfold select_heating_settings, execute_query. now rewrite H.
Qed.

Lemma latest_query_run (E : Env) room user now w :
  run_flux E now (latest_query room user) (influx w) =
    Ok (flux_tables FluxLast (lookback_rows room user now w)).
Proof.
  unfold run_flux, lookback_rows.
  change (q_start (latest_query room user)) with (FluxDuration (- seven_days)).
  change (q_stop (latest_query room user)) with FluxNow.
  change (q_tail (latest_query room user)) with FluxLast.
  unfold flux_bound.
  destruct (Z.leb_spec now (now + - seven_days)) as [L | L].
  - unfold seven_days, us_per_day, us_per_second in L. lia.
  - replace (now + - seven_days) with (now - seven_days) by lia. reflexivity.
Qed.

Lemma current_temp_last rows :
  current_temp (flux_tables FluxLast rows) =
    option_map get_value (last_row rows).
Proof.
  unfold flux_tables, current_temp.
  destruct rows as [| x rest]; [reflexivity |].
  destruct (last_row (x :: rest)); reflexivity.
Qed.

(** ** The heating decision, step by step *)

Lemma is_empty_false {A : Type} (l : list A) : l <> [] -> is_empty l = false.
Proof. destruct l; [congruence | reflexivity]. Qed.

Lemma get_heating_status_run (E : Env) room user w s rest ns ne :
  sql_fault E (ticks w) = false ->
  owned_rooms room user w <> [] ->
  sql_fault E (1 + ticks w) = false ->
  heating_settings_rows user room w = s :: rest ->
  to_time E (night_start s) = Ok ns ->
  to_time E (night_end s) = Ok ne ->
  influx_fault E (3 + ticks w) = false ->
  get_heating_status E room user w =
    (match last_row (lookback_rows room user (utc_at E (3 + ticks w)) w) with
     | Some latest =>
         Ok (float_lt (get_value latest)
               (target_temp s
                  (is_night ns ne
                     (datetime_time (wall E (utc_at E (2 + ticks w)))))))
     | None =>
         Raise (HTTPException 404 "No temperature data found for this room")
     end,
     after_decision room user w).
Proof.
  intros F1 Hroom F2 Hset Hs He F3.
  unfold get_heating_status, bind.
  rewrite (select_room_run E room user w F1).
  rewrite (is_empty_false _ Hroom).
  rewrite select_heating_settings_run by (now rewrite ticks_emit).
  change (heating_settings_rows user room (emit (EvSql (SelectRoom room user)) w))
    with (heating_settings_rows user room w).
  rewrite Hset.
  unfold datetime_now, lift. rewrite Hs, He.
  unfold query_api_query.
  rewrite !ticks_emit.
  change (S (S (S (ticks w)))) with (3 + ticks w)%nat.
  change (S (S (ticks w))) with (2 + ticks w)%nat.
  rewrite F3.
  change (influx (emit EvClock
            (emit (EvSql (SelectHeatingSettings user room))
               (emit (EvSql (SelectRoom room user)) w)))) with (influx w).
  rewrite latest_query_run, current_temp_last.
  unfold after_decision.
  destruct (last_row (lookback_rows room user (utc_at E (3 + ticks w)) w));
    reflexivity.
Qed.

Lemma float_lt_irrefl (x : float) : float_lt x x = false.
Proof.
  unfold float_lt, SFltb.
  destruct x as [s | s | | s m e]; cbn; try reflexivity.
  - destruct s; reflexivity.
  - rewrite Z.compare_refl.
    assert (R : PosDef.Pos.compare_cont Eq m m = Eq)
      by (apply Pos.compare_cont_refl).
    rewrite R. destruct s; reflexivity.
Qed.

(** C2. For every room of the caller that has a settings row and a latest
    sample in the seven-day lookback window, the decision returns
    [heating_on = (latest value < target)]: true exactly when the latest
    value is strictly below the resolved target, and false when the two are
    equal. *)
Theorem heating_on_iff_below_target (E : Env) room user w s rest ns ne latest :
  sql_fault E (ticks w) = false ->
  owned_rooms room user w <> [] ->
  sql_fault E (1 + ticks w) = false ->
  heating_settings_rows user room w = s :: rest ->
  to_time E (night_start s) = Ok ns ->
  to_time E (night_end s) = Ok ne ->
  influx_fault E (3 + ticks w) = false ->
  latest_sample (lookback_rows room user (utc_at E (3 + ticks w)) w) latest ->
  let target :=
    target_temp s
      (is_night ns ne (datetime_time (wall E (utc_at E (2 + ticks w))))) in
  exists heating_on,
    fst (get_heating_status E room user w) = Ok heating_on /\
    (heating_on = true <-> float_lt (get_value latest) target = true) /\
    (get_value latest = target -> heating_on = false) /\
    influx (snd (get_heating_status E room user w)) = influx w.
Proof.
  intros F1 Hroom F2 Hset Hs He F3 Hlatest target.
  rewrite (get_heating_status_run E room user w s rest ns ne F1 Hroom F2 Hset Hs He F3).
  rewrite (last_row_latest _ _ (lookback_rows_sorted _ _ _ _) Hlatest).
  exists (float_lt (get_value latest) target). cbn [fst snd].
  split; [reflexivity |]. split; [tauto |]. split.
  - intros ->. apply float_lt_irrefl.
  - reflexivity.
Qed.

Lemma night_window_membership_witness :
  is_night (mkTime 22 0 0 0) (mkTime 6 0 0 0) (mkTime 22 0 0 0) = true /\
  is_night (mkTime 22 0 0 0) (mkTime 6 0 0 0) (mkTime 6 0 0 0) = false.
Proof.
  pose proof (night_window_membership Scenario.env
                (heating_columns (Scenario.default_settings 7 1))
                (mkTime 22 0 0 0) (mkTime 6 0 0 0) (mkTime 23 30 0 0)
                I I eq_refl eq_refl eq_refl) as H.
  split; [apply H | apply H; discriminate].
Defined.

Lemma equal_bounds_always_night_witness :
  is_night (mkTime 22 0 0 0) (mkTime 22 0 0 0) (mkTime 12 0 0 0) = true.
Proof.
  apply (equal_bounds_always_night Scenario.env
           (mkHeating Scenario.t21_0 Scenario.t18_0
                      (SqlTimedelta (Scenario.hours 22))
                      (SqlTime (mkTime 22 0 0 0)))
           (mkTime 22 0 0 0) (mkTime 12 0 0 0) eq_refl eq_refl).
Defined.

Lemma heating_on_iff_below_target_witness :
  exists heating_on,
    fst (get_heating_status Scenario.env 1 7 Scenario.world) = Ok heating_on /\
    (heating_on = true <->
     float_lt Scenario.t17_5 Scenario.t18_0 = true) /\
    (Scenario.t17_5 = Scenario.t18_0 -> heating_on = false) /\
    influx (snd (get_heating_status Scenario.env 1 7 Scenario.world))
      = influx Scenario.world.
Proof.
  apply (heating_on_iff_below_target Scenario.env 1 7 Scenario.world
           (heating_columns (Scenario.default_settings 7 1)) []
           (mkTime 22 0 0 0) (mkTime 6 0 0 0)
           (mkRecord (Scenario.half_past_eleven - Scenario.hours 1) Scenario.t17_5)).
  - reflexivity.
  - discriminate.
  - reflexivity.
  - reflexivity.
  - reflexivity.
  - reflexivity.
  - reflexivity.
  - split.
    + vm_compute. right. left. reflexivity.
    + intros r' Hr'. vm_compute in Hr'.
      destruct Hr' as [<- | [<- | []]]; vm_compute; discriminate.
Defined.

(** The scenarios of the specification: with the default schedule, 23:30
    is night (target 18.0) and 07:00 is day (target 21.0); a reading of
    17.5 against 18.0 turns the heating on, a reading of 18.0 does not. *)
Example scenario_half_past_eleven :
  fst (get_heating_status Scenario.env 1 7 Scenario.world) = Ok true.
Proof. vm_compute. reflexivity. Qed.

Example scenario_targets :
  target_temp (heating_columns (Scenario.default_settings 7 1))
    (is_night (mkTime 22 0 0 0) (mkTime 6 0 0 0) (mkTime 23 30 0 0))
    = Scenario.t18_0 /\
  target_temp (heating_columns (Scenario.default_settings 7 1))
    (is_night (mkTime 22 0 0 0) (mkTime 6 0 0 0) (mkTime 7 0 0 0))
    = Scenario.t21_0 /\
  float_lt Scenario.t17_5 Scenario.t18_0 = true /\
  float_lt Scenario.t18_0 Scenario.t18_0 = false.
Proof. vm_compute. repeat split; reflexivity. Qed.

(** ** Not found, no data *)

(** Every row of a series was written as a point of that series. *)
Lemma series_of_In q written r :
  In r (series_of q written) ->
  exists p, In p written /\ point_matches q p = true /\
            r = mkRecord (p_time p) (p_value p).
Proof.
  unfold series_of.
  assert (G : forall acc,
            In r (fold_left
                    (fun rows p =>
                       if point_matches q p
                       then upsert (mkRecord (p_time p) (p_value p)) rows
                       else rows) written acc) ->
            In r acc \/
            exists p, In p written /\ point_matches q p = true /\
                      r = mkRecord (p_time p) (p_value p)).
  { induction written as [| p rest IH]; cbn; intros acc H; [now left |].
    destruct (IH _ H) as [Hacc | (p' & Hin & Hm & Hr)].
    - destruct (point_matches q p) eqn:Mp; [| now left].
      destruct (upsert_In _ _ _ Hacc) as [-> | Hold]; [| now left].
      right. exists p. auto.
    - right. exists p'. auto. }
  intros H. destruct (G [] H) as [[] | Hp]. exact Hp.
Qed.

Lemma filter_none {A : Type} (f : A -> bool) (l : list A) :
  (forall x, In x l -> f x = false) -> filter f l = [].
Proof.
  induction l as [| x rest IH]; cbn; intros H; [reflexivity |].
  rewrite (H x (or_introl eq_refl)). apply IH. intros y Hy. apply H. now right.
Qed.

Lemma no_sample_no_rows room user now w :
  no_sample_in_lookback room user now w -> lookback_rows room user now w = [].
Proof.
  intros H. unfold lookback_rows. apply filter_none. intros r Hr.
  destruct (series_of_In _ _ _ Hr) as (p & Hin & Hm & ->).
  specialize (H p Hin Hm). unfold in_window; cbn [get_time].
  apply andb_false_iff. rewrite Z.leb_gt, Z.ltb_ge. lia.
Qed.

(** C8. The decision fails with 404 "Room not found" when the caller owns
    no such room, with 404 "Room settings not found" when the room has no
    settings row, and with 404 "No temperature data found for this room"
    (no decision is returned) when no sample of the room's series lies in
    the seven-day lookback window.  The two relational checks come first:
    in the first two cases the bucket is never queried, and in the third
    the query is the last of the four interactions. *)
Theorem decision_not_found_no_data (E : Env) room user w :
  sql_fault E (ticks w) = false ->
  (owned_rooms room user w = [] ->
     get_heating_status E room user w =
       (Raise (HTTPException 404 "Room not found"),
        emit (EvSql (SelectRoom room user)) w)) /\
  (owned_rooms room user w <> [] ->
   sql_fault E (1 + ticks w) = false ->
   heating_settings_rows user room w = [] ->
     get_heating_status E room user w =
       (Raise (HTTPException 404 "Room settings not found"),
        emit (EvSql (SelectHeatingSettings user room))
          (emit (EvSql (SelectRoom room user)) w))) /\
  (forall s rest ns ne,
     owned_rooms room user w <> [] ->
     sql_fault E (1 + ticks w) = false ->
     heating_settings_rows user room w = s :: rest ->
     to_time E (night_start s) = Ok ns ->
     to_time E (night_end s) = Ok ne ->
     influx_fault E (3 + ticks w) = false ->
     no_sample_in_lookback room user (utc_at E (3 + ticks w)) w ->
       fst (get_heating_status E room user w) =
         Raise (HTTPException 404 "No temperature data found for this room") /\
       trace (snd (get_heating_status E room user w)) =
         trace w ++ [EvSql (SelectRoom room user);
                     EvSql (SelectHeatingSettings user room);
                     EvClock;
                     EvInfluxQuery (latest_query room user)]).
Proof.
  intros F1. split; [| split].
  - intros Hnone. unfold get_heating_status, bind.
    rewrite (select_room_run E room user w F1), Hnone. reflexivity.
  - intros Hroom F2 Hnone. unfold get_heating_status, bind.
    rewrite (select_room_run E room user w F1), (is_empty_false _ Hroom).
    rewrite select_heating_settings_run by (now rewrite ticks_emit).
    change (heating_settings_rows user room (emit (EvSql (SelectRoom room user)) w))
      with (heating_settings_rows user room w).
    rewrite Hnone. reflexivity.
  - intros s rest ns ne Hroom F2 Hset Hs He F3 Hnodata.
    rewrite (get_heating_status_run E room user w s rest ns ne
               F1 Hroom F2 Hset Hs He F3).
    rewrite (no_sample_no_rows _ _ _ _ Hnodata). cbn [last_row fst snd].
    split; [reflexivity |].
    unfold after_decision, emit; cbn [trace].
    now rewrite <- !app_assoc.
Qed.

Lemma decision_not_found_no_data_witness :
  fst (get_heating_status Scenario.env 9 7 Scenario.world) =
    Raise (HTTPException 404 "Room not found") /\
  fst (get_heating_status Scenario.env 3 7 Scenario.world) =
    Raise (HTTPException 404 "Room settings not found") /\
  fst (get_heating_status Scenario.env 2 7 Scenario.world) =
    Raise (HTTPException 404 "No temperature data found for this room").
Proof.
  split; [| split].
  - destruct (decision_not_found_no_data Scenario.env 9 7 Scenario.world eq_refl)
      as [H _].
    now rewrite (H eq_refl).
  - destruct (decision_not_found_no_data Scenario.env 3 7 Scenario.world eq_refl)
      as [_ [H _]].
    rewrite H; [reflexivity | discriminate | reflexivity | reflexivity].
  - destruct (decision_not_found_no_data Scenario.env 2 7 Scenario.world eq_refl)
      as [_ [_ H]].
    apply (H (heating_columns (Scenario.default_settings 7 2)) []
             (mkTime 22 0 0 0) (mkTime 6 0 0 0)); try reflexivity.
    + discriminate.
    + intros p Hp Hm. vm_compute in Hp.
      destruct Hp as [<- | [<- | []]]; vm_compute in Hm; discriminate.
Defined.

(** ** Which clock the night test reads *)

Lemma heating_settings_rows_retimezone f user room w :
  heating_settings_rows user room (retimezone f w) =
  heating_settings_rows user room w.
Proof.
  unfold heating_settings_rows, retimezone; cbn [room_settings].
  induction (room_settings w) as [| s rest IH]; cbn; [reflexivity |].
  destruct ((s_user_id s =? user) && (s_room_id s =? room)); cbn; now rewrite IH.
Qed.

(** The handler commutes with any rewriting of the [timezone] column. *)
Lemma get_heating_status_retimezone (E : Env) f room user w :
  get_heating_status E room user (retimezone f w) =
    (fst (get_heating_status E room user w),
     retimezone f (snd (get_heating_status E room user w))).
Proof.
  unfold get_heating_status, bind, select_room, select_heating_settings,
    execute_query.
  change (ticks (retimezone f w)) with (ticks w).
  destruct (sql_fault E (ticks w)); [reflexivity |].
  change (owned_rooms room user (emit (EvSql (SelectRoom room user)) (retimezone f w)))
    with (owned_rooms room user w).
  change (owned_rooms room user (emit (EvSql (SelectRoom room user)) w))
    with (owned_rooms room user w).
  destruct (is_empty (owned_rooms room user w)); [reflexivity |].
  change (ticks (emit (EvSql (SelectRoom room user)) (retimezone f w)))
    with (ticks (emit (EvSql (SelectRoom room user)) w)).
  destruct (sql_fault E (ticks (emit (EvSql (SelectRoom room user)) w)));
    [reflexivity |].
  change (heating_settings_rows user room
            (emit (EvSql (SelectHeatingSettings user room))
               (emit (EvSql (SelectRoom room user)) (retimezone f w))))
    with (heating_settings_rows user room (retimezone f w)).
  change (heating_settings_rows user room
            (emit (EvSql (SelectHeatingSettings user room))
               (emit (EvSql (SelectRoom room user)) w)))
    with (heating_settings_rows user room w).
  rewrite heating_settings_rows_retimezone.
  destruct (heating_settings_rows user room w) as [| s rest]; [reflexivity |].
  unfold datetime_now, lift.
  destruct (to_time E (night_start s)); [| reflexivity].
  destruct (to_time E (night_end s)); [| reflexivity].
  unfold query_api_query.
  rewrite !ticks_emit.
  change (ticks (retimezone f w)) with (ticks w).
  cbn [emit retimezone influx].
  match goal with
  | |- context [influx_fault E ?n] => destruct (influx_fault E n)
  end; [reflexivity |].
  match goal with
  | |- context [run_flux E ?n ?q ?l] => destruct (run_flux E n q l) as [tables | e]
  end; [| reflexivity].
  destruct (current_temp tables); reflexivity.
Qed.

(** C3 (as the code has it).  The time of day used in the night test is the
    reading of the server's own clock, [datetime.now().time()]; the column
    [timezone] is not among the columns the decision selects, so rewriting
    it in any way leaves every decision unchanged. *)
Theorem night_test_reads_server_clock (E : Env) room user w :
  (forall f : SettingsRow -> string,
     fst (get_heating_status E room user (retimezone f w)) =
     fst (get_heating_status E room user w)) /\
  (forall s rest ns ne latest,
     sql_fault E (ticks w) = false ->
     owned_rooms room user w <> [] ->
     sql_fault E (1 + ticks w) = false ->
     heating_settings_rows user room w = s :: rest ->
     to_time E (night_start s) = Ok ns ->
     to_time E (night_end s) = Ok ne ->
     influx_fault E (3 + ticks w) = false ->
     latest_sample (lookback_rows room user (utc_at E (3 + ticks w)) w) latest ->
     fst (get_heating_status E room user w) =
       Ok (float_lt (get_value latest)
             (target_temp s
                (is_night ns ne (time_on_server E (utc_at E (2 + ticks w))))))).
Proof.
  split.
  - intros f. now rewrite get_heating_status_retimezone.
  - intros s rest ns ne latest F1 Hroom F2 Hset Hs He F3 Hlatest.
    rewrite (get_heating_status_run E room user w s rest ns ne
               F1 Hroom F2 Hset Hs He F3).
    now rewrite (last_row_latest _ _ (lookback_rows_sorted _ _ _ _) Hlatest).
Qed.

Lemma night_test_reads_server_clock_witness :
  fst (get_heating_status Tokyo.env 1 7 Tokyo.world) =
    Ok (float_lt Scenario.t19_0
          (target_temp (heating_columns Tokyo.settings)
             (is_night (mkTime 22 0 0 0) (mkTime 6 0 0 0)
                (time_on_server Tokyo.env (utc_at Tokyo.env 2))))).
Proof.
  destruct (night_test_reads_server_clock Tokyo.env 1 7 Tokyo.world) as [_ H].
  apply (H (heating_columns Tokyo.settings) []
           (mkTime 22 0 0 0) (mkTime 6 0 0 0)
           (mkRecord (Tokyo.two_pm - Scenario.hours 1) Scenario.t19_0));
    try reflexivity.
  - discriminate.
  - split.
    + vm_compute. left. reflexivity.
    + intros r' Hr'. vm_compute in Hr'.
      destruct Hr' as [<- | []]; vm_compute; discriminate.
Defined.

(** At 14:00 UTC it is 23:00 in Tokyo.  With the night test read in the
    schedule's zone the target would be the night temperature 18.0, and a
    reading of 19.0 would leave the heating off; the handler reads 14:00,
    takes the day temperature 21.0, and turns the heating on. *)
Lemma schedule_zone_not_used :
  time_in_zone Tokyo.env (s_timezone Tokyo.settings) (utc_at Tokyo.env 2)
    = mkTime 23 0 2 0 /\
  is_night (mkTime 22 0 0 0) (mkTime 6 0 0 0)
    (time_in_zone Tokyo.env (s_timezone Tokyo.settings) (utc_at Tokyo.env 2))
    = true /\
  float_lt Scenario.t19_0
    (target_temp (heating_columns Tokyo.settings)
       (is_night (mkTime 22 0 0 0) (mkTime 6 0 0 0)
          (time_in_zone Tokyo.env (s_timezone Tokyo.settings)
             (utc_at Tokyo.env 2)))) = false /\
  time_on_server Tokyo.env (utc_at Tokyo.env 2) = mkTime 14 0 2 0 /\
  fst (get_heating_status Tokyo.env 1 7 Tokyo.world) = Ok true.
Proof. vm_compute. repeat split; reflexivity. Qed.

(** ** Batch ingestion: the size guard *)

(** C6. A batch of more than 100 values is never ingested: the call
    raises, its only interaction is the ownership query, and the bucket is
    left as it was.  Once the ownership check has passed, the error is
    400 "Maximum 100 temperatures per request". *)
Theorem oversized_batch_rejected (E : Env) batch user w :
  100 < Z.of_nat (List.length (temperatures batch)) ->
  (exists e, fst (post_temperature_batch E batch user w) = Raise e) /\
  snd (post_temperature_batch E batch user w) =
    emit (EvSql (SelectRoom (b_room_id batch) user)) w /\
  influx (snd (post_temperature_batch E batch user w)) = influx w /\
  (sql_fault E (ticks w) = false ->
   owned_rooms (b_room_id batch) user w <> [] ->
   fst (post_temperature_batch E batch user w) =
     Raise (HTTPException 400 "Maximum 100 temperatures per request")).
Proof.
  intros Hlen. apply Z.ltb_lt in Hlen.
  unfold post_temperature_batch, bind.
  destruct (sql_fault E (ticks w)) eqn:F.
  - rewrite (select_room_fault E _ _ _ F). cbn [fst snd].
    repeat split; [now eexists | discriminate].
  - rewrite (select_room_run E _ _ _ F).
    destruct (owned_rooms (b_room_id batch) user w) as [| r rest] eqn:Hr;
      cbn [is_empty]; [| rewrite Hlen]; unfold raise; cbn [fst snd].
    + repeat split; [now eexists | congruence].
    + repeat split; now eexists.
Qed.

Lemma oversized_batch_rejected_witness :
  fst (post_temperature_batch Scenario.env oversized_batch 7 Scenario.world) =
    Raise (HTTPException 400 "Maximum 100 temperatures per request") /\
  influx (snd (post_temperature_batch Scenario.env oversized_batch 7 Scenario.world))
    = influx Scenario.world.
Proof.
  assert (L : 100 < Z.of_nat (List.length (temperatures oversized_batch)))
    by (vm_compute; reflexivity).
  destruct (oversized_batch_rejected Scenario.env oversized_batch 7 Scenario.world L)
    as (_ & _ & Hkeep & Herr).
  split; [apply Herr; [reflexivity | discriminate] | exact Hkeep].
Defined.

(** ** Deleting a room *)

(** C10. For a room the caller owns, the row in [rooms] is deleted, its
    settings row goes with it, and the call reports success, whether or
    not the range-delete in the bucket fails: that failure is caught (and
    only printed), and then the bucket keeps the room's samples. *)
Theorem room_deleted_despite_bucket_failure (E : Env) room user w :
  sql_fault E (ticks w) = false ->
  owned_rooms room user w <> [] ->
  sql_fault E (3 + ticks w) = false ->
  fst (delete_room E room user w) =
    Ok "Room and all temperature data deleted successfully" /\
  rooms (snd (delete_room E room user w)) =
    filter (fun r => negb (r_id r =? room)) (rooms w) /\
  room_settings (snd (delete_room E room user w)) =
    filter (fun s => negb (s_room_id s =? room)) (room_settings w) /\
  (influx_fault E (2 + ticks w) = true ->
   influx (snd (delete_room E room user w)) = influx w).
Proof.
  intros F1 Hroom F2.
  unfold delete_room, bind.
  rewrite (select_room_run E room user w F1), (is_empty_false _ Hroom).
  unfold try_except, bind, datetime_now, delete_api_delete.
  rewrite !ticks_emit.
  change (S (S (ticks w))) with (2 + ticks w)%nat.
  destruct (influx_fault E (2 + ticks w)) eqn:FI;
    unfold ret, delete_from_rooms, execute_query;
    rewrite ?ticks_emit;
    change (ticks (set_influx ?l ?w')) with (ticks w');
    rewrite ?ticks_emit;
    change (S (S (S (ticks w)))) with (3 + ticks w)%nat;
    rewrite F2; cbn [fst snd];
    repeat split; try reflexivity; discriminate.
Qed.

Lemma room_deleted_despite_bucket_failure_witness :
  fst (delete_room bucket_down 1 7 Scenario.world) =
    Ok "Room and all temperature data deleted successfully" /\
  rooms (snd (delete_room bucket_down 1 7 Scenario.world)) =
    [mkRoom 2 7 "Attic"; mkRoom 3 7 "Shed"] /\
  room_settings (snd (delete_room bucket_down 1 7 Scenario.world)) =
    [Scenario.default_settings 7 2] /\
  influx (snd (delete_room bucket_down 1 7 Scenario.world)) =
    influx Scenario.world.
Proof.
  assert (Hroom : owned_rooms 1 7 Scenario.world <> []) by discriminate.
  destruct (room_deleted_despite_bucket_failure bucket_down 1 7 Scenario.world
              eq_refl Hroom eq_refl) as (Hok & Hrooms & Hsettings & Hkeep).
  split; [exact Hok |].
  split; [rewrite Hrooms; reflexivity |].
  split; [rewrite Hsettings; reflexivity |].
  apply Hkeep. reflexivity.
Defined.

(** ** Range queries *)

Lemma insert_by_time_In r rows x :
  In x (insert_by_time r rows) <-> x = r \/ In x rows.
Proof.
  induction rows as [| y rest IH]; cbn.
  - intuition.
  - destruct (get_time r <=? get_time y); cbn; [intuition |].
    rewrite IH. intuition.
Qed.

Lemma sort_by_time_In rows x : In x (sort_by_time rows) <-> In x rows.
Proof.
  induction rows as [| y rest IH]; cbn; [reflexivity |].
  rewrite insert_by_time_In, IH. intuition.
Qed.

Lemma insert_by_time_sorted r rows :
  StronglySorted time_le rows -> StronglySorted time_le (insert_by_time r rows).
Proof.
  induction 1 as [| y rest Hs IH Hall]; cbn.
  - repeat constructor.
  - destruct (Z.leb_spec (get_time r) (get_time y)) as [L | L].
    + constructor; [now constructor |].
      constructor; [exact L |].
      rewrite Forall_forall in *. intros x Hx. specialize (Hall x Hx).
      unfold time_le in *. lia.
    + constructor; [exact IH |].
      rewrite Forall_forall in *. intros x Hx.
      apply insert_by_time_In in Hx. destruct Hx as [-> | Hx].
      * unfold time_le. lia.
      * now apply Hall.
Qed.

Lemma sort_by_time_sorted rows : StronglySorted time_le (sort_by_time rows).
Proof.
  induction rows as [| y rest IH]; cbn; [constructor |].
  now apply insert_by_time_sorted.
Qed.

Lemma concat_sorted_tables rows :
  List.concat (flux_tables FluxSortTime rows) = sort_by_time rows.
Proof.
  destruct rows as [| x rest]; [reflexivity |].
  cbn [flux_tables List.concat]. apply app_nil_r.
Qed.

Lemma map_response_sorted room rows :
  StronglySorted time_le rows ->
  StronglySorted (fun a b => resp_time a <= resp_time b)
    (map (fun record => mkResponse (get_time record) (get_value record) room) rows).
Proof.
  induction 1 as [| y rest Hs IH Hall]; cbn; constructor; [exact IH |].
  rewrite Forall_forall in *. intros x Hx.
  apply in_map_iff in Hx. destruct Hx as (r & <- & Hr). cbn.
  apply (Hall r Hr).
Qed.

Lemma start_flux_default start :
  str_truthy start = false -> start_flux start = FluxDuration (- one_day).
Proof.
  unfold start_flux. destruct start as [v |]; [| reflexivity].
  now intros ->.
Qed.

Lemma end_flux_default end_ :
  str_truthy end_ = false -> end_flux end_ = FluxNow.
Proof.
  unfold end_flux. destruct end_ as [v |]; [| reflexivity].
  now intros ->.
Qed.

(** C9 (as the code has it).  In a range query an omitted [end] is "now"
    and an omitted [start] is 24 hours before "now" (the moment of the
    query), whatever the end bound is.  The answer holds exactly the rows
    of the room's series with [start <= time < end], in ascending order of
    time. *)
Theorem range_query_defaults (E : Env) room user start end_ w lo hi :
  sql_fault E (ticks w) = false ->
  owned_rooms room user w <> [] ->
  influx_fault E (1 + ticks w) = false ->
  flux_bound E (utc_at E (1 + ticks w)) (start_flux start) = Some lo ->
  flux_bound E (utc_at E (1 + ticks w)) (end_flux end_) = Some hi ->
  lo < hi ->
  (str_truthy end_ = false -> hi = utc_at E (1 + ticks w)) /\
  (str_truthy start = false -> lo = utc_at E (1 + ticks w) - one_day) /\
  exists results,
    fst (get_room_temperatures E room user start end_ w) = Ok results /\
    StronglySorted (fun a b => resp_time a <= resp_time b) results /\
    (forall t v,
       In (mkResponse t v room) results <->
       In (mkRecord t v) (room_series room user w) /\ lo <= t < hi).
Proof.
  intros F1 Hroom F2 Hlo Hhi Hlt.
  split; [| split].
  - intros Hend. rewrite (end_flux_default _ Hend) in Hhi.
    unfold flux_bound in Hhi. congruence.
  - intros Hstart. rewrite (start_flux_default _ Hstart) in Hlo.
    unfold flux_bound in Hlo.
    assert (Heq : utc_at E (1 + ticks w) + - one_day = lo) by congruence.
    lia.
  - unfold get_room_temperatures, bind.
    rewrite (select_room_run E room user w F1), (is_empty_false _ Hroom).
    unfold query_api_query. rewrite ticks_emit.
    change (S (ticks w)) with (1 + ticks w)%nat. rewrite F2.
    unfold run_flux. cbn [q_start q_stop q_tail].
    rewrite Hlo, Hhi.
    destruct (Z.leb_spec hi lo) as [L | _]; [lia |].
    cbn [influx emit]. unfold ret. cbn [fst].
    eexists. split; [reflexivity |].
    rewrite concat_sorted_tables. split.
    + apply map_response_sorted, sort_by_time_sorted.
    + intros t v. rewrite in_map_iff. split.
      * intros (r & Heq & Hr). injection Heq as <- <-.
        apply sort_by_time_In, filter_In in Hr. destruct Hr as [Hr Hw].
        unfold in_window in Hw. apply andb_true_iff in Hw.
        rewrite Z.leb_le, Z.ltb_lt in Hw.
        destruct r as [t v]; cbn in *. split; [exact Hr | lia].
      * intros [Hr Hw]. exists (mkRecord t v). split; [reflexivity |].
        apply sort_by_time_In, filter_In. split; [exact Hr |].
        unfold in_window; cbn. apply andb_true_iff.
        rewrite Z.leb_le, Z.ltb_lt. lia.
Qed.

Lemma range_query_defaults_witness :
  exists results,
    fst (get_room_temperatures HourAgo.env 1 7 None (Some HourAgo.literal)
           HourAgo.world) = Ok results /\
    StronglySorted (fun a b => resp_time a <= resp_time b) results.
Proof.
  assert (Hroom : owned_rooms 1 7 HourAgo.world <> []) by discriminate.
  assert (Hlt : utc_at HourAgo.env 1 - one_day
                < Scenario.half_past_eleven - Scenario.hours 1)
    by (vm_compute; reflexivity).
  destruct (range_query_defaults HourAgo.env 1 7 None (Some HourAgo.literal)
              HourAgo.world
              (utc_at HourAgo.env 1 - one_day)
              (Scenario.half_past_eleven - Scenario.hours 1)
              eq_refl Hroom eq_refl eq_refl eq_refl Hlt)
    as (_ & _ & results & Hrun & Hsorted & _).
  exists results. split; assumption.
Defined.

(** Asked at 23:30:01 for the readings up to 22:30 with no start, the
    specified window is the 24 hours before 22:30 and holds the reading
    made at 23:00 the day before; the handler's window starts 24 hours
    before the moment of the query, and its answer is empty. *)
Lemma omitted_start_counts_from_now :
  specified_window HourAgo.env (utc_at HourAgo.env 1) None (Some HourAgo.literal)
    = Some (Scenario.half_past_eleven - Scenario.hours 25,
            Scenario.half_past_eleven - Scenario.hours 1) /\
  In (mkRecord HourAgo.reading_time Scenario.t19_0)
     (room_series 1 7 HourAgo.world) /\
  in_window (Scenario.half_past_eleven - Scenario.hours 25)
            (Scenario.half_past_eleven - Scenario.hours 1)
            (mkRecord HourAgo.reading_time Scenario.t19_0) = true /\
  fst (get_room_temperatures HourAgo.env 1 7 None (Some HourAgo.literal)
         HourAgo.world) = Ok [].
Proof.
  split; [vm_compute; reflexivity |].
  split; [vm_compute; left; reflexivity |].
  split; vm_compute; reflexivity.
Qed.

(** ** Batch ingestion: one write per value, one reading of the clock each *)




Lemma writes_app a b : writes (a ++ b) = writes a ++ writes b.
Proof. unfold writes. apply flat_map_app. Qed.


(** The flush of a point handed over at interaction [ticks w]. *)
Lemma write_api_write_run (E : Env) p w :
  write_api_write E p w =
    (Ok tt,
     if is_finite (p_value p) && negb (influx_fault E (ticks w))
     then set_influx (influx w ++ [p]) (emit (EvInfluxWrite p) w)
     else emit (EvInfluxWrite p) w).
Proof.
  unfold write_api_write.
  destruct (is_finite (p_value p) && negb (influx_fault E (ticks w)));
    reflexivity.
Qed.







(** A batch of two values that are not finite: two points are handed to
    the write API and "2 temperatures recorded" is reported, while the
    bucket gains nothing. *)
Example batch_of_non_finite_values :
  let run := post_temperature_batch Scenario.env
               (mkBatch 1 [S754_infinity false; S754_nan] None) 7 Scenario.world in
  fst run = Ok "2 temperatures recorded" /\
  map p_value (writes (trace (snd run))) = [S754_infinity false; S754_nan] /\
  influx (snd run) = influx Scenario.world.
Proof. vm_compute. repeat split; reflexivity. Qed.

(** The batch of the scenario, run.  The first entry keeps its parsed
    timestamp; the second, whose string does not parse, carries the second
    reading made for it (interaction 4), the third its only reading
    (interaction 6): two readings, not one shared timestamp. *)
Example batch_timestamps_run :
  map p_time
    (skipn 2 (influx (snd (post_temperature_batch Batch.env Batch.batch 7
                             Scenario.world)))) =
    [Scenario.midnight + Scenario.hours 12;
     Scenario.half_past_eleven + 4 * us_per_second;
     Scenario.half_past_eleven + 6 * us_per_second].
Proof. vm_compute. reflexivity. Qed.

(** ** The weather loop *)

Lemma http_requests_emit ev w :
  http_requests (trace (emit ev w)) =
  http_requests (trace w) ++ match ev with
                             | EvHttpGet la lo => [(la, lo)]
                             | _ => []
                             end.
Proof.
  unfold http_requests, emit; cbn [trace].
  rewrite flat_map_app. cbn. now rewrite app_nil_r.
Qed.

Lemma sleeps_emit ev w :
  sleeps (trace (emit ev w)) =
  sleeps (trace w) ++ match ev with
                      | EvSleep s => [s]
                      | _ => []
                      end.
Proof.
  unfold sleeps, emit; cbn [trace].
  rewrite flat_map_app. cbn. now rewrite app_nil_r.
Qed.

(** One location: whatever happens, nothing is raised, one request is made,
    and the bucket gains the location's sample or nothing. *)
Lemma guarded_store_weather_run (E : Env) user w :
  exists w',
    guarded_store_weather E user w = (Ok tt, w') /\
    influx w' = influx w ++ option_list (weather_sample E user (ticks w)) /\
    ticks w' = (weather_steps E (ticks w) + ticks w)%nat /\
    http_requests (trace w') = http_requests (trace w) ++ [coordinates user] /\
    sleeps (trace w') = sleeps (trace w).
Proof.
  unfold guarded_store_weather, try_except, store_weather, bind, requests_get,
    weather_sample, weather_steps, reply_temperature, lift.
  destruct (http_get E (ticks w)) as [| data].
  { eexists. split; [reflexivity |].
    rewrite ticks_emit, http_requests_emit, sleeps_emit, !app_nil_r.
    repeat split. }
  destruct (dict_get data "current" (JObj [])) as [current | e].
  2: { eexists. split; [reflexivity |].
       rewrite ticks_emit, http_requests_emit, sleeps_emit, !app_nil_r.
       repeat split. }
  destruct (dict_get current "temperature_2m" JNull) as [t | e].
  2: { eexists. split; [reflexivity |].
       rewrite ticks_emit, http_requests_emit, sleeps_emit, !app_nil_r.
       repeat split. }
  destruct (is_none t).
  { eexists. split; [reflexivity |].
    rewrite ticks_emit, http_requests_emit, sleeps_emit, !app_nil_r.
    repeat split. }
  unfold datetime_now, write_api_write.
  rewrite !ticks_emit.
  destruct (py_float E t) as [value | e].
  - change (S (S (ticks w))) with (2 + ticks w)%nat. cbn [p_value].
    destruct (is_finite value && negb (influx_fault E (2 + ticks w))); eexists;
      (split; [reflexivity |]);
      rewrite ?ticks_set_influx, ?trace_set_influx, ?influx_set_influx,
        ?influx_emit, ?ticks_emit, ?http_requests_emit, ?sleeps_emit, ?app_nil_r;
      repeat split.
  - eexists. split; [reflexivity |].
    rewrite !ticks_emit, !http_requests_emit, !sleeps_emit, !app_nil_r.
    repeat split.
Qed.

(** The loop over the locations: each is processed, whatever became of the
    ones before it. *)
Lemma weather_locations_run (E : Env) locations :
  forall w,
  exists w',
    for_each locations (guarded_store_weather E) w = (Ok tt, w') /\
    influx w' = influx w ++ cycle_samples E locations (ticks w) /\
    http_requests (trace w') =
      http_requests (trace w) ++ map coordinates locations /\
    sleeps (trace w') = sleeps (trace w).
Proof.
  induction locations as [| user rest IH]; intros w.
  - exists w. cbn. rewrite !app_nil_r. repeat split.
  - destruct (guarded_store_weather_run E user w)
      as (w1 & Hrun & Hinflux1 & Hticks & Hreq1 & Hsleep1).
    destruct (IH w1) as (w' & Hloop & Hinflux & Hreq & Hsleep).
    exists w'. cbn [for_each]. unfold bind at 1. rewrite Hrun, Hloop.
    split; [reflexivity |].
    split; [| split].
    + rewrite Hinflux, Hinflux1, Hticks. cbn [cycle_samples].
      now rewrite app_assoc.
    + rewrite Hreq, Hreq1. cbn [map]. now rewrite <- app_assoc.
    + congruence.
Qed.

Lemma weather_cycle_run (E : Env) w :
  exists w',
    weather_cycle E w = (Ok tt, w') /\
    sleeps (trace w') = sleeps (trace w) ++ [600] /\
    (sql_fault E (ticks w) = true -> influx w' = influx w) /\
    (sql_fault E (ticks w) = false ->
       influx w' = influx w ++ cycle_samples E (users w) (1 + ticks w) /\
       http_requests (trace w') =
         http_requests (trace w) ++ map coordinates (users w)).
Proof.
  unfold weather_cycle, bind at 1, try_except, bind, select_users, execute_query.
  destruct (sql_fault E (ticks w)) eqn:F.
  - eexists. unfold ret, asyncio_sleep. split; [reflexivity |].
    rewrite !sleeps_emit, app_nil_r.
    repeat split; [discriminate | discriminate].
  - change (users (emit (EvSql SelectUsers) w)) with (users w).
    destruct (weather_locations_run E (users w) (emit (EvSql SelectUsers) w))
      as (w1 & Hloop & Hinflux & Hreq & Hsleep).
    fold (guarded_store_weather E).
    assert (Hbody :
              (if is_empty (users w) then ret tt
               else for_each (users w) (guarded_store_weather E))
                (emit (EvSql SelectUsers) w) = (Ok tt, w1)).
    { destruct (users w) as [| u rest]; [| exact Hloop].
      cbn in Hloop. exact Hloop. }
    unfold guarded_store_weather in Hbody at 1.
    unfold try_except in Hbody.
    rewrite Hbody.
    eexists. unfold asyncio_sleep. split; [reflexivity |].
    rewrite sleeps_emit, Hsleep, sleeps_emit, app_nil_r, http_requests_emit, influx_emit.
    split; [reflexivity |]. split; [discriminate |].
    intros _. rewrite Hinflux, Hreq, ticks_emit, http_requests_emit, !app_nil_r.
    split; reflexivity.
Qed.

Lemma weather_loop_run (E : Env) n :
  forall w,
    fst (fetch_and_store_weather_data E n w) = Ok tt /\
    sleeps (trace (snd (fetch_and_store_weather_data E n w))) =
      sleeps (trace w) ++ repeat 600 n.
Proof.
  induction n as [| n IH]; intros w.
  - cbn. now rewrite app_nil_r.
  - cbn [fetch_and_store_weather_data]. unfold bind.
    destruct (weather_cycle_run E w) as (w1 & Hrun & Hsleep & _).
    rewrite Hrun. destruct (IH w1) as [Hok Hs].
    split; [exact Hok |].
    rewrite Hs, Hsleep, <- app_assoc. reflexivity.
Qed.

(** C5. In every cycle the locations are processed independently.  No
    exception leaves the cycle, which ends with the sleep of 600 seconds;
    so any number of cycles of the loop run without raising, one sleep
    each.  When the locations are loaded, one request is made for every
    location, in order, whatever happened to the others, and the bucket
    gains, in order, the sample of each location that has one: a location
    gives exactly one sample when its reply carries a temperature that
    converts to a finite float and its write is not lost, and none when
    its fetch fails, when its write is lost, or when the temperature is
    not finite (the client sends no such field). *)
Theorem weather_cycle_isolates_locations (E : Env) :
  (forall w,
     fst (weather_cycle E w) = Ok tt /\
     sleeps (trace (snd (weather_cycle E w))) = sleeps (trace w) ++ [600]) /\
  (forall n w,
     fst (fetch_and_store_weather_data E n w) = Ok tt /\
     sleeps (trace (snd (fetch_and_store_weather_data E n w))) =
       sleeps (trace w) ++ repeat 600 n) /\
  (forall w,
     sql_fault E (ticks w) = false ->
     http_requests (trace (snd (weather_cycle E w))) =
       http_requests (trace w) ++ map coordinates (users w) /\
     influx (snd (weather_cycle E w)) =
       influx w ++ cycle_samples E (users w) (1 + ticks w)) /\
  (forall user rest k,
     cycle_samples E (user :: rest) k =
       option_list (weather_sample E user k)
         ++ cycle_samples E rest (weather_steps E k + k)) /\
  (forall user k,
     http_get E k = HttpFailure \/ influx_fault E (2 + k) = true ->
     weather_sample E user k = None) /\
  (forall user k t value,
     reply_temperature (http_get E k) = Some t ->
     py_float E t = Ok value ->
     is_finite value = false ->
     weather_sample E user k = None) /\
  (forall user k t value,
     reply_temperature (http_get E k) = Some t ->
     py_float E t = Ok value ->
     is_finite value = true ->
     influx_fault E (2 + k) = false ->
     weather_sample E user k =
       Some (mkPoint "weather_temperature" (py_str (u_id user)) None value
                     (wall E (utc_at E (1 + k))))).
Proof.
  split; [| split; [| split; [| split; [| split; [| split]]]]].
  - intros w. destruct (weather_cycle_run E w) as (w' & Hrun & Hsleep & _).
    rewrite Hrun. split; [reflexivity | exact Hsleep].
  - intros n w. apply weather_loop_run.
  - intros w F. destruct (weather_cycle_run E w) as (w' & Hrun & _ & _ & Hok).
    rewrite Hrun. destruct (Hok F) as [Hinflux Hreq]. split; assumption.
  - reflexivity.
  - intros user k [Hfail | Hfault]; unfold weather_sample.
    + rewrite Hfail. reflexivity.
    + destruct (reply_temperature (http_get E k)) as [t |]; [| reflexivity].
      destruct (py_float E t); [| reflexivity].
      now rewrite Hfault, andb_false_r.
  - intros user k t value Ht Hv Hfin. unfold weather_sample.
    now rewrite Ht, Hv, Hfin.
  - intros user k t value Ht Hv Hfin Hw. unfold weather_sample.
    now rewrite Ht, Hv, Hfin, Hw.
Qed.

(** A provider that answers NaN for every location: three requests, three
    points handed to the write API, nothing gained by the bucket. *)
Example weather_cycle_of_nan :
  let E := with_http_get (fun _ => Scenario.weather_body (JFloat S754_nan))
                         Scenario.env in
  let run := weather_cycle E ThreeLocations.world in
  fst run = Ok tt /\
  List.length (http_requests (trace (snd run))) = 3%nat /\
  List.length (writes (trace (snd run))) = 3%nat /\
  influx (snd run) = [].
Proof. vm_compute. repeat split; reflexivity. Qed.

(** Three locations, the fetch failing for the second: exactly the samples
    of the first and the third are appended, and nothing is raised. *)
Lemma weather_cycle_isolates_locations_witness :
  fst (weather_cycle ThreeLocations.env ThreeLocations.world) = Ok tt /\
  map p_user_id
    (influx (snd (weather_cycle ThreeLocations.env ThreeLocations.world)))
    = ["1"; "3"] /\
  List.length
    (http_requests
       (trace (snd (weather_cycle ThreeLocations.env ThreeLocations.world))))
    = 3%nat.
Proof.
  destruct (weather_cycle_isolates_locations ThreeLocations.env)
    as (Hsafe & _ & Hcycle & _).
  destruct (Hsafe ThreeLocations.world) as [Hok _].
  destruct (Hcycle ThreeLocations.world eq_refl) as [Hreq Hinflux].
  split; [exact Hok |].
  split; [rewrite Hinflux | rewrite Hreq]; vm_compute; reflexivity.
Defined.

(* ================================================================= *)
(** * Further properties *)

(** ** The conversion of a [TIME] column *)

Lemma quot_seconds_bounds (td : Z) :
  (0 <= Z.quot td us_per_second < 86400 <->
   - us_per_second < td < us_per_day) /\
  (Z.quot td us_per_second < 0 <-> td <= - us_per_second).
Proof.
  unfold us_per_day, us_per_second.
  pose proof (Z.quot_rem' td 1000000) as Hq.
  destruct (Z_le_gt_dec 0 td) as [Hpos | Hneg].
  - pose proof (Z.rem_bound_pos_pos td 1000000 ltac:(lia) Hpos). lia.
  - pose proof (Z.rem_bound_pos_neg td 1000000 ltac:(lia) ltac:(lia)). lia.
Qed.

Lemma py_time_of_seconds (q : Z) :
  (0 <= q < 86400 ->
   py_time (q / 3600) ((q mod 3600) / 60) (q mod 60) =
     Ok (mkTime (q / 3600) ((q mod 3600) / 60) (q mod 60) 0)) /\
  (q < 0 \/ 86400 <= q ->
   py_time (q / 3600) ((q mod 3600) / 60) (q mod 60) = Raise ValueError).
Proof.
  assert (Hm : 0 <= q mod 3600 < 3600) by (apply Z.mod_pos_bound; lia).
  assert (Hs : 0 <= q mod 60 < 60) by (apply Z.mod_pos_bound; lia).
  assert (Hmin : 0 <= (q mod 3600) / 60 <= 59).
  { split; [apply Z.div_pos; lia |].
    assert ((q mod 3600) / 60 < 60) by (apply Z.div_lt_upper_bound; lia). lia. }
  unfold py_time, in_range. split.
  - intros Hq.
    assert (0 <= q / 3600 <= 23).
    { split; [apply Z.div_pos; lia |].
      assert (q / 3600 < 24) by (apply Z.div_lt_upper_bound; lia). lia. }
    replace ((0 <=? q / 3600) && (q / 3600 <=? 23) &&
             (0 <=? q mod 3600 / 60) && (q mod 3600 / 60 <=? 59) &&
             (0 <=? q mod 60) && (q mod 60 <=? 59) &&
             (0 <=? 0) && (0 <=? 999999)) with true; [reflexivity |].
    symmetry. rewrite !andb_true_iff, !Z.leb_le. lia.
  - intros Hq.
    replace ((0 <=? q / 3600) && (q / 3600 <=? 23)) with false; [reflexivity |].
    symmetry. apply andb_false_iff. rewrite Z.leb_gt, Z.leb_gt.
    destruct Hq as [Hq | Hq].
    + left. apply Z.div_lt_upper_bound; lia.
    + right. assert (24 <= q / 3600) by (apply Z.div_le_lower_bound; lia). lia.
Qed.

Lemma to_time_timedelta_outside (E : Env) (td : timedelta) :
  td <= - us_per_second \/ us_per_day <= td ->
  to_time E (SqlTimedelta td) = Raise ValueError.
Proof.
  destruct (quot_seconds_bounds td) as [Hin Hneg].
  unfold to_time, total_seconds_int. intros Htd.
  destruct (py_time_of_seconds (Z.quot td us_per_second)) as [_ Hbad].
  apply Hbad. destruct Htd as [Htd | Htd].
  - left. now apply Hneg.
  - right. destruct (Z_lt_dec (Z.quot td us_per_second) 86400) as [L | L]; [| lia].
    exfalso.
    destruct (Z_lt_dec (Z.quot td us_per_second) 0) as [N | N].
    + apply Hneg in N. unfold us_per_day, us_per_second in *. lia.
    + assert (- us_per_second < td < us_per_day) by (apply Hin; lia). lia.
Qed.

(** X1. A [timedelta] read from a [TIME] column converts to a time of day
    exactly when it lies in the half-open day from 0 (more precisely:
    above minus one second, because [int()] truncates toward zero) to 24
    hours; outside it the [time(...)] constructor raises [ValueError].
    The converted time is well formed and has no microseconds. *)
Theorem to_time_timedelta_range (E : Env) (td : timedelta) :
  (- us_per_second < td < us_per_day ->
   exists t, to_time E (SqlTimedelta td) = Ok t /\ wf t /\ microsecond t = 0) /\
  (td <= - us_per_second \/ us_per_day <= td ->
   to_time E (SqlTimedelta td) = Raise ValueError).
Proof.
  destruct (quot_seconds_bounds td) as [Hin Hneg].
  unfold to_time, total_seconds_int. split.
  - intros Htd. apply Hin in Htd.
    destruct (py_time_of_seconds (Z.quot td us_per_second)) as [Hok _].
    eexists. split; [apply Hok; exact Htd |].
    split; [| reflexivity].
    eapply TimeFacts.py_time_wf. apply Hok. exact Htd.
  - intros Htd. fold (total_seconds_int td).
    now apply (to_time_timedelta_outside E td).
Qed.

Lemma to_time_timedelta_range_witness :
  (exists t, to_time Scenario.env (SqlTimedelta (Scenario.hours 22)) = Ok t /\
             wf t /\ microsecond t = 0) /\
  to_time Scenario.env (SqlTimedelta (Scenario.hours 24)) = Raise ValueError.
Proof.
  destruct (to_time_timedelta_range Scenario.env (Scenario.hours 22)) as [Hok _].
  destruct (to_time_timedelta_range Scenario.env (Scenario.hours 24)) as [_ Hbad].
  split.
  - apply Hok. vm_compute. split; reflexivity.
  - apply Hbad. right. vm_compute. discriminate.
Defined.

(** X2. Storing a time of day as the length of time since midnight and
    converting it back with the handler's arithmetic
    ([seconds // 3600], [(seconds % 3600) // 60], [seconds % 60]) gives
    back its hour, minute and second; the microseconds are dropped. *)
Theorem to_time_of_day_round_trip (E : Env) (t : time) :
  wf t ->
  to_time E (SqlTimedelta (of_day t)) =
    Ok (mkTime (hour t) (minute t) (second t) 0).
Proof.
  intros Hwf. apply TimeFacts.in_range_bounds in Hwf.
  destruct t as [h m s us]; cbn [hour minute second microsecond] in *.
  unfold to_time, total_seconds_int, of_day; cbn [hour minute second microsecond].
  assert (Hq : Z.quot (((h * 60 + m) * 60 + s) * 1000000 + us) us_per_second
               = (h * 60 + m) * 60 + s).
  { unfold us_per_second. rewrite Z.quot_div_nonneg by lia.
    symmetry. apply (Z.div_unique _ _ _ us); lia. }
  rewrite Hq.
  assert (H1 : ((h * 60 + m) * 60 + s) / 3600 = h)
    by (symmetry; apply (Z.div_unique _ _ _ (m * 60 + s)); lia).
  assert (H2 : ((h * 60 + m) * 60 + s) mod 3600 = m * 60 + s)
    by (symmetry; apply (Z.mod_unique _ _ h); lia).
  assert (H3 : (m * 60 + s) / 60 = m)
    by (symmetry; apply (Z.div_unique _ _ _ s); lia).
  assert (H4 : ((h * 60 + m) * 60 + s) mod 60 = s)
    by (symmetry; apply (Z.mod_unique _ _ (h * 60 + m)); lia).
  rewrite H1, H2, H3, H4.
  unfold py_time, in_range.
  replace ((0 <=? h) && (h <=? 23) && (0 <=? m) && (m <=? 59) &&
           (0 <=? s) && (s <=? 59) && (0 <=? 0) && (0 <=? 999999)) with true;
    [reflexivity |].
  symmetry. rewrite !andb_true_iff, !Z.leb_le. lia.
Qed.

Lemma to_time_of_day_round_trip_witness :
  to_time Scenario.env (SqlTimedelta (of_day (mkTime 23 59 59 250000))) =
    Ok (mkTime 23 59 59 0).
Proof.
  apply (to_time_of_day_round_trip Scenario.env (mkTime 23 59 59 250000)).
  reflexivity.
Defined.

(** ** The night test *)

(** X3. Exchanging two distinct bounds exchanges night and day: the
    window from [b] to [a] is the complement of the window from [a] to
    [b], at every time of day. *)
Theorem is_night_swapped_bounds (a b now : time) :
  wf a -> wf b -> wf now -> a <> b ->
  is_night b a now = negb (is_night a b now).
Proof.
  intros Wa Wb Wn Hneq.
  assert (Hd : of_day a <> of_day b)
    by (intros Heq; apply Hneq; now apply TimeFacts.of_day_inj).
  destruct (is_night_spec a b now Wa Wb Wn) as [Pab Wab].
  destruct (is_night_spec b a now Wb Wa Wn) as [Pba Wba].
  unfold Time.lt, Time.le in *.
  destruct (is_night a b now), (is_night b a now);
    try reflexivity; exfalso;
    destruct (Z_lt_dec (of_day a) (of_day b)) as [L | L].
  - assert (L' : ~ of_day b < of_day a) by lia.
    pose proof (proj1 (Pab L) eq_refl). pose proof (proj1 (Wba L') eq_refl). lia.
  - assert (L' : of_day b < of_day a) by lia.
    pose proof (proj1 (Wab L) eq_refl). pose proof (proj1 (Pba L') eq_refl). lia.
  - assert (L' : ~ of_day b < of_day a) by lia.
    assert (Hn : ~ (of_day b <= of_day now \/ of_day now < of_day a))
      by (intros H; apply (Wba L') in H; discriminate).
    assert (Hm : ~ (of_day a <= of_day now /\ of_day now < of_day b))
      by (intros H; apply (Pab L) in H; discriminate).
    lia.
  - assert (L' : of_day b < of_day a) by lia.
    assert (Hn : ~ (of_day b <= of_day now /\ of_day now < of_day a))
      by (intros H; apply (Pba L') in H; discriminate).
    assert (Hm : ~ (of_day a <= of_day now \/ of_day now < of_day b))
      by (intros H; apply (Wab L) in H; discriminate).
    lia.
Qed.

Lemma is_night_swapped_bounds_witness :
  is_night (mkTime 6 0 0 0) (mkTime 22 0 0 0) (mkTime 23 30 0 0) =
  negb (is_night (mkTime 22 0 0 0) (mkTime 6 0 0 0) (mkTime 23 30 0 0)).
Proof.
  apply (is_night_swapped_bounds (mkTime 22 0 0 0) (mkTime 6 0 0 0)
           (mkTime 23 30 0 0)); try reflexivity.
  discriminate.
Defined.

(** ** The dashboard's target *)

(** X4. The dashboard resolves its displayed target as the API resolves
    the target of the decision: for bounds that parse, and for the same
    reading of the clock, [get_current_target_temp] returns what
    [target_temp] and [is_night] give on the same schedule; it changes
    nothing but the trace.  A bound that does not parse raises
    [ValueError]. *)
Theorem dashboard_target_agrees (E : Env) (settings : DashboardSettings) w :
  (forall ns ne,
     strptime_time E (d_night_start settings) = Ok ns ->
     strptime_time E (d_night_end settings) = Ok ne ->
     get_current_target_temp E settings w =
       (Ok (target_temp
              (mkHeating (d_wanted_temp_day settings) (d_wanted_temp_night settings)
                         (SqlStr (d_night_start settings))
                         (SqlStr (d_night_end settings)))
              (is_night ns ne (datetime_time (wall E (utc_at E (ticks w)))))),
        emit EvClock w) /\
     to_time E (SqlStr (d_night_start settings)) = Ok ns /\
     to_time E (SqlStr (d_night_end settings)) = Ok ne) /\
  (strptime_HMS E (d_night_start settings) = None ->
   fst (get_current_target_temp E settings w) = Raise ValueError).
Proof.
  split.
  - intros ns ne Hs He. split; [| split; assumption].
    unfold get_current_target_temp, bind, datetime_now, lift.
    rewrite Hs, He. unfold target_temp, is_night; cbn [wanted_temp_night wanted_temp_day].
    destruct (if Time.ltb ns ne
              then Time.leb ns (datetime_time (wall E (utc_at E (ticks w)))) &&
                   Time.ltb (datetime_time (wall E (utc_at E (ticks w)))) ne
              else Time.geb (datetime_time (wall E (utc_at E (ticks w)))) ns ||
                   Time.ltb (datetime_time (wall E (utc_at E (ticks w)))) ne);
      reflexivity.
  - intros Hbad.
    unfold get_current_target_temp, bind, datetime_now, lift, strptime_time.
    now rewrite Hbad.
Qed.

Lemma dashboard_target_agrees_witness :
  fst (get_current_target_temp Dashboard.env Dashboard.settings Scenario.world)
    = Ok Scenario.t18_0.
Proof.
  destruct (dashboard_target_agrees Dashboard.env Dashboard.settings Scenario.world)
    as [H _].
  destruct (H (mkTime 22 0 0 0) (mkTime 6 0 0 0) eq_refl eq_refl) as [Hrun _].
  rewrite Hrun. vm_compute. reflexivity.
Defined.

(** ** Strings *)

Lemma py_str_inj (a b : Z) : py_str a = py_str b -> a = b.
Proof.
  unfold py_str. intros H.
  assert (Hn : forall z, Z.to_int z <> Decimal.Pos Decimal.Nil /\
                         Z.to_int z <> Decimal.Neg Decimal.Nil).
  { intros [| p | p]; cbn; split; try discriminate;
      intros [= Hp]; now apply (DecimalPos.Unsigned.to_uint_nonnil p). }
  apply DecimalZ.to_int_inj.
  assert (Hs : Some (Z.to_int a) = Some (Z.to_int b)).
  { rewrite <- (NilZero.isi (Z.to_int a)) by apply Hn.
    rewrite <- (NilZero.isi (Z.to_int b)) by apply Hn.
    now rewrite H. }
  now injection Hs.
Qed.

Lemma str_replace_char_absent old new s :
  has_char old s = false -> str_replace_char old new s = s.
Proof.
  induction s as [| c rest IH]; cbn; [reflexivity |].
  intros H. apply orb_false_iff in H. destruct H as [Hc Hrest].
  rewrite Hc. now rewrite IH.
Qed.

Lemma str_replace_char_app old new s1 s2 :
  str_replace_char old new (s1 ++ s2)%string =
  (str_replace_char old new s1 ++ str_replace_char old new s2)%string.
Proof.
  induction s1 as [| c rest IH]; cbn; [reflexivity |].
  rewrite IH. destruct (Ascii.eqb c old); [| reflexivity].
  generalize (str_replace_char old new rest) (str_replace_char old new s2).
  clear. intros r1 r2.
  induction new as [| n new' IHn]; cbn; [reflexivity |].
  now rewrite IHn.
Qed.

(** X5. What the batch handler hands to [fromisoformat]: a timestamp
    without any [Z] is passed on unchanged, and a timestamp whose only
    [Z] is its last character has that suffix replaced by [+00:00].  The
    replacement is applied to every [Z] of the string, wherever it stands,
    so the string passed on never contains one. *)
Theorem timestamp_z_normalised (s : string) :
  (has_char "Z" s = false ->
   str_replace_char "Z" "+00:00" s = s /\
   str_replace_char "Z" "+00:00" (s ++ "Z")%string = (s ++ "+00:00")%string) /\
  has_char "Z" (str_replace_char "Z" "+00:00" s) = false.
Proof.
  split.
  - intros H. split; [now apply str_replace_char_absent |].
    rewrite str_replace_char_app, (str_replace_char_absent _ _ _ H). reflexivity.
  - induction s as [| c rest IH]; [reflexivity |].
    cbn [str_replace_char]. destruct (Ascii.eqb c "Z") eqn:Hc.
    + cbn. exact IH.
    + cbn [has_char]. now rewrite Hc, IH.
Qed.

Lemma timestamp_z_normalised_witness :
  str_replace_char "Z" "+00:00" "2026-01-01T00:00:00Z" = "2026-01-01T00:00:00+00:00".
Proof.
  destruct (timestamp_z_normalised "2026-01-01T00:00:00") as [H _].
  destruct (H eq_refl) as [_ Hz]. exact Hz.
Defined.

(** ** Waiting for the database *)




(** ** Relations every step of a handler respects *)

Section Respects.

Variable R : World -> World -> Prop.
Hypothesis R_refl : forall w, R w w.
Hypothesis R_trans : forall a b c, R a b -> R b c -> R a c.
Hypothesis R_emit : forall ev w, R w (emit ev w).

Lemma respects_ret {A : Type} (a : A) : respects R (ret a).
Proof. intros w. apply R_refl. Qed.

Lemma respects_raise {A : Type} (e : exn) : respects R (@raise A e).
Proof. intros w. apply R_refl. Qed.

Lemma respects_lift {A : Type} (r : Result A) : respects R (lift r).
Proof. intros w. apply R_refl. Qed.

Lemma respects_bind {A B : Type} (c : M A) (k : A -> M B) :
  respects R c -> (forall a, respects R (k a)) -> respects R (bind c k).
Proof.
  intros Hc Hk w. unfold bind. specialize (Hc w).
  destruct (c w) as [[a | e] w1]; cbn [snd] in *; [| exact Hc].
  eapply R_trans; [exact Hc | apply Hk].
Qed.

Lemma respects_try_except {A : Type} (body : M A) (handler : exn -> M A) :
  respects R body -> (forall e, respects R (handler e)) ->
  respects R (try_except body handler).
Proof.
  intros Hb Hh w. unfold try_except. specialize (Hb w).
  destruct (body w) as [[a | e] w1]; cbn [snd] in *; [exact Hb |].
  eapply R_trans; [exact Hb | apply Hh].
Qed.

Lemma respects_for_each {A : Type} (xs : list A) (body : A -> M unit) :
  (forall x, respects R (body x)) -> respects R (for_each xs body).
Proof.
  intros Hb. induction xs as [| x rest IH]; cbn [for_each].
  - apply respects_ret.
  - apply respects_bind; [apply Hb | intros _; exact IH].
Qed.

Lemma respects_for_enumerate {A : Type} (xs : list A) (body : nat -> A -> M unit) :
  (forall i x, respects R (body i x)) ->
  forall i, respects R (for_enumerate i xs body).
Proof.
  intros Hb. induction xs as [| x rest IH]; intros i; cbn [for_enumerate].
  - apply respects_ret.
  - apply respects_bind; [apply Hb | intros _; apply IH].
Qed.

Lemma respects_datetime_now (E : Env) : respects R (datetime_now E).
Proof. intros w. apply R_emit. Qed.

Lemma respects_asyncio_sleep (seconds : Z) : respects R (asyncio_sleep seconds).
Proof. intros w. apply R_emit. Qed.

Lemma respects_requests_get (E : Env) la lo : respects R (requests_get E la lo).
Proof.
  intros w. unfold requests_get.
  destruct (http_get E (ticks w)); apply R_emit.
Qed.

Lemma respects_select {A : Type} (E : Env) stmt (rows : World -> A) :
  respects R (execute_query E stmt (fun w => (rows w, w))).
Proof.
  intros w. unfold execute_query.
  destruct (sql_fault E (ticks w)); apply R_emit.
Qed.

Lemma respects_query_api_query (E : Env) q : respects R (query_api_query E q).
Proof.
  intros w. unfold query_api_query.
  destruct (influx_fault E (ticks w)); apply R_emit.
Qed.

(** The three handlers that only read. *)
Lemma respects_get_heating_status (E : Env) room user :
  respects R (get_heating_status E room user).
Proof.
  unfold get_heating_status.
  apply respects_bind; [apply respects_select |]. intros owned.
  destruct (is_empty owned); [apply respects_raise |].
  apply respects_bind; [apply respects_select |]. intros [| s rest];
    [apply respects_raise |].
  apply respects_bind; [apply respects_datetime_now |]. intros now.
  apply respects_bind; [apply respects_lift |]. intros ns.
  apply respects_bind; [apply respects_lift |]. intros ne.
  apply respects_bind; [apply respects_query_api_query |]. intros tables.
  destruct (current_temp tables); [apply respects_ret | apply respects_raise].
Qed.

Lemma respects_get_latest_temperature (E : Env) room user :
  respects R (get_latest_temperature E room user).
Proof.
  unfold get_latest_temperature.
  apply respects_bind; [apply respects_select |]. intros owned.
  destruct (is_empty owned); [apply respects_raise |].
  apply respects_bind; [apply respects_query_api_query |]. intros tables.
  destruct (first_record tables); [apply respects_ret | apply respects_raise].
Qed.

Lemma respects_get_room_temperatures (E : Env) room user start end_ :
  respects R (get_room_temperatures E room user start end_).
Proof.
  unfold get_room_temperatures.
  apply respects_bind; [apply respects_select |]. intros owned.
  destruct (is_empty owned); [apply respects_raise |].
  apply respects_bind; [apply respects_query_api_query |]. intros tables.
  apply respects_ret.
Qed.

End Respects.

Lemma same_stores_refl w : same_stores w w.
Proof. repeat split. Qed.

Lemma same_stores_trans a b c :
  same_stores a b -> same_stores b c -> same_stores a c.
Proof.
  unfold same_stores. intros (U1 & R1 & S1 & I1) (U2 & R2 & S2 & I2).
  repeat split; congruence.
Qed.

Lemma same_stores_emit ev w : same_stores w (emit ev w).
Proof. repeat split. Qed.

(** X7. The heating decision and the latest-reading query are read-only:
    however they end (a result, a 404, a fault of the database or of the
    bucket, a failed conversion), the three relational tables and the
    bucket are what they were.  The same holds for the dashboard's target,
    and for the range query when its two bounds are plain (no double
    quote, backslash or dollar sign), so that the query text the handler
    builds is the pipeline it means to send. *)
Theorem reading_handlers_change_nothing (E : Env) room user start end_ settings w :
  same_stores w (snd (get_heating_status E room user w)) /\
  same_stores w (snd (get_latest_temperature E room user w)) /\
  (plain_bound start = true -> plain_bound end_ = true ->
   same_stores w (snd (get_room_temperatures E room user start end_ w))) /\
  same_stores w (snd (get_current_target_temp E settings w)).
Proof.
  split; [| split; [| split]].
  - apply (respects_get_heating_status same_stores
             same_stores_refl same_stores_trans same_stores_emit).
  - apply (respects_get_latest_temperature same_stores
             same_stores_refl same_stores_trans same_stores_emit).
  - intros _ _.
    apply (respects_get_room_temperatures same_stores
             same_stores_refl same_stores_trans same_stores_emit).
  - unfold get_current_target_temp.
    apply (respects_bind same_stores same_stores_trans);
      [apply (respects_datetime_now same_stores same_stores_emit) |]. intros now.
    apply (respects_bind same_stores same_stores_trans);
      [apply (respects_lift same_stores same_stores_refl) |]. intros ns.
    apply (respects_bind same_stores same_stores_trans);
      [apply (respects_lift same_stores same_stores_refl) |]. intros ne.
    match goal with
    | |- respects _ (if ?b then _ else _) => destruct b
    end; apply (respects_ret same_stores same_stores_refl).
Qed.

Lemma reading_handlers_change_nothing_witness :
  same_stores HourAgo.world
    (snd (get_room_temperatures HourAgo.env 1 7 None (Some HourAgo.literal)
            HourAgo.world)).
Proof.
  destruct (reading_handlers_change_nothing HourAgo.env 1 7 None
              (Some HourAgo.literal) Dashboard.settings HourAgo.world)
    as (_ & _ & H & _).
  apply H; reflexivity.
Defined.

(** ** Relations the writing handlers respect *)

Section Writers.

Variable R : World -> World -> Prop.
Variable P : Point -> Prop.
Hypothesis R_refl : forall w, R w w.
Hypothesis R_trans : forall a b c, R a b -> R b c -> R a c.
Hypothesis R_emit : forall ev w, R w (emit ev w).
Hypothesis R_write : forall E p, P p -> respects R (write_api_write E p).

Lemma respects_store_weather (E : Env) user :
  (forall value t,
     P (mkPoint "weather_temperature" (py_str (u_id user)) None value t)) ->
  respects R (store_weather E user).
Proof.
  intros HP. unfold store_weather.
  apply (respects_bind R R_trans); [apply (respects_requests_get R R_emit) |].
  intros data.
  apply (respects_bind R R_trans); [apply (respects_lift R R_refl) |].
  intros current.
  apply (respects_bind R R_trans); [apply (respects_lift R R_refl) |].
  intros weather_temp.
  destruct (is_none weather_temp); [apply (respects_ret R R_refl) |].
  apply (respects_bind R R_trans); [apply (respects_datetime_now R R_emit) |].
  intros timestamp.
  apply (respects_bind R R_trans); [apply (respects_lift R R_refl) |].
  intros value. apply R_write, HP.
Qed.

Lemma respects_weather_cycle (E : Env) :
  (forall user value t,
     P (mkPoint "weather_temperature" (py_str (u_id user)) None value t)) ->
  respects R (weather_cycle E).
Proof.
  intros HP. unfold weather_cycle.
  apply (respects_bind R R_trans);
    [| intros _; apply (respects_asyncio_sleep R R_emit)].
  apply (respects_try_except R R_trans);
    [| intros e; apply (respects_ret R R_refl)].
  apply (respects_bind R R_trans); [apply (respects_select R R_emit) |].
  intros locations.
  destruct (is_empty locations); [apply (respects_ret R R_refl) |].
  apply (respects_for_each R R_refl R_trans). intros user.
  apply (respects_try_except R R_trans);
    [| intros e; apply (respects_ret R R_refl)].
  apply respects_store_weather. apply HP.
Qed.

Lemma respects_weather_loop (E : Env) n :
  (forall user value t,
     P (mkPoint "weather_temperature" (py_str (u_id user)) None value t)) ->
  respects R (fetch_and_store_weather_data E n).
Proof.
  intros HP. induction n as [| n IH]; cbn [fetch_and_store_weather_data].
  - apply (respects_ret R R_refl).
  - apply (respects_bind R R_trans); [now apply respects_weather_cycle |].
    intros _. exact IH.
Qed.

Lemma respects_entry_timestamp (E : Env) batch i :
  respects R (entry_timestamp E batch i).
Proof.
  unfold entry_timestamp.
  apply (respects_bind R R_trans); [apply (respects_datetime_now R R_emit) |].
  intros timestamp.
  destruct (timestamps batch) as [ts |]; [| apply (respects_ret R R_refl)].
  destruct (nth_error ts i) as [s |]; [| apply (respects_ret R R_refl)].
  destruct (fromisoformat E (str_replace_char "Z" "+00:00" s));
    [apply (respects_ret R R_refl) | apply (respects_datetime_now R R_emit)].
Qed.

Lemma respects_post_temperature_batch (E : Env) batch user :
  (forall value t,
     P (mkPoint "temperature" (py_str user) (Some (py_str (b_room_id batch)))
                value t)) ->
  respects R (post_temperature_batch E batch user).
Proof.
  intros HP. unfold post_temperature_batch.
  apply (respects_bind R R_trans); [apply (respects_select R R_emit) |].
  intros owned.
  destruct (is_empty owned); [apply (respects_raise R R_refl) |].
  destruct (100 <? Z.of_nat (List.length (temperatures batch)));
    [apply (respects_raise R R_refl) |].
  apply (respects_bind R R_trans); [| intros _; apply (respects_ret R R_refl)].
  apply (respects_for_enumerate R R_refl R_trans). intros i temp.
  unfold ingest_entry.
  apply (respects_bind R R_trans); [apply respects_entry_timestamp |].
  intros timestamp. apply R_write, HP.
Qed.

Lemma respects_post_temperature (E : Env) data user :
  (forall value t,
     P (mkPoint "temperature" (py_str user) (Some (py_str (e_room_id data)))
                value t)) ->
  respects R (post_temperature E data user).
Proof.
  intros HP. unfold post_temperature.
  apply (respects_bind R R_trans); [apply (respects_select R R_emit) |].
  intros owned.
  destruct (is_empty owned); [apply (respects_raise R R_refl) |].
  apply (respects_bind R R_trans); [apply (respects_datetime_now R R_emit) |].
  intros timestamp.
  apply (respects_bind R R_trans); [| intros _; apply (respects_ret R R_refl)].
  apply R_write, HP.
Qed.

Lemma respects_delete_room (E : Env) room user :
  (forall r u stop, respects R (delete_api_delete E r u stop)) ->
  respects R (delete_from_rooms E room) ->
  respects R (delete_room E room user).
Proof.
  intros Hbucket Hrows. unfold delete_room.
  apply (respects_bind R R_trans); [apply (respects_select R R_emit) |].
  intros owned.
  destruct (is_empty owned); [apply (respects_raise R R_refl) |].
  apply (respects_bind R R_trans).
  - apply (respects_try_except R R_trans);
      [| intros e; apply (respects_ret R R_refl)].
    apply (respects_bind R R_trans); [apply (respects_datetime_now R R_emit) |].
    intros stop. apply Hbucket.
  - intros _.
    apply (respects_bind R R_trans); [exact Hrows |].
    intros _. apply (respects_ret R R_refl).
Qed.

End Writers.

Lemma keeps_tagging_refl w : keeps_tagging w w.
Proof. intros H. exact H. Qed.

Lemma keeps_tagging_trans a b c :
  keeps_tagging a b -> keeps_tagging b c -> keeps_tagging a c.
Proof. unfold keeps_tagging. auto. Qed.

Lemma keeps_tagging_emit ev w : keeps_tagging w (emit ev w).
Proof. intros H. exact H. Qed.

Lemma keeps_tagging_write E p :
  well_tagged p -> respects keeps_tagging (write_api_write E p).
Proof.
  intros Hp w Hw. rewrite write_api_write_run. cbn [snd].
  destruct (is_finite (p_value p) && negb (influx_fault E (ticks w)));
    [| exact Hw].
  rewrite influx_set_influx.
  apply Forall_app. split; [exact Hw | now constructor].
Qed.

Lemma keeps_tagging_delete_bucket E r u stop :
  respects keeps_tagging (delete_api_delete E r u stop).
Proof.
  intros w Hw. unfold delete_api_delete.
  destruct (influx_fault E (ticks w)); cbn [snd]; [exact Hw |].
  rewrite influx_set_influx, influx_emit.
  rewrite Forall_forall in *. intros p Hp. apply filter_In in Hp. now apply Hw.
Qed.

Lemma keeps_tagging_delete_rows E room :
  respects keeps_tagging (delete_from_rooms E room).
Proof.
  intros w Hw. unfold delete_from_rooms, execute_query.
  destruct (sql_fault E (ticks w)); exact Hw.
Qed.

Lemma room_point_well_tagged user room value t :
  well_tagged (mkPoint "temperature" user (Some room) value t).
Proof. left. split; [reflexivity | discriminate]. Qed.

Lemma weather_point_well_tagged user value t :
  well_tagged (mkPoint "weather_temperature" user None value t).
Proof. right. split; reflexivity. Qed.

(** X8. The shape of the bucket is an invariant of every handler that
    writes or deletes: if every stored point is either a [temperature]
    point with a room tag or a [weather_temperature] point without one,
    this is still so after [post_temperature], [post_temperature_batch],
    [delete_room], a weather cycle, or any number of cycles of the loop,
    however the call ends. *)
Theorem bucket_stays_well_tagged (E : Env) w :
  Forall well_tagged (influx w) ->
  (forall data user,
     Forall well_tagged (influx (snd (post_temperature E data user w)))) /\
  (forall batch user,
     Forall well_tagged (influx (snd (post_temperature_batch E batch user w)))) /\
  (forall room user,
     Forall well_tagged (influx (snd (delete_room E room user w)))) /\
  (forall n,
     Forall well_tagged (influx (snd (fetch_and_store_weather_data E n w)))).
Proof.
  intros Hw. split; [| split; [| split]].
  - intros data user.
    apply (respects_post_temperature keeps_tagging well_tagged
             keeps_tagging_refl keeps_tagging_trans keeps_tagging_emit
             keeps_tagging_write E data user); [| exact Hw].
    intros. apply room_point_well_tagged.
  - intros batch user.
    apply (respects_post_temperature_batch keeps_tagging well_tagged
             keeps_tagging_refl keeps_tagging_trans keeps_tagging_emit
             keeps_tagging_write E batch user); [| exact Hw].
    intros. apply room_point_well_tagged.
  - intros room user.
    apply (respects_delete_room keeps_tagging
             keeps_tagging_refl keeps_tagging_trans keeps_tagging_emit
             E room user); [| | exact Hw].
    + intros. apply keeps_tagging_delete_bucket.
    + apply keeps_tagging_delete_rows.
  - intros n.
    apply (respects_weather_loop keeps_tagging well_tagged
             keeps_tagging_refl keeps_tagging_trans keeps_tagging_emit
             keeps_tagging_write E n); [| exact Hw].
    intros. apply weather_point_well_tagged.
Qed.

Lemma bucket_stays_well_tagged_witness :
  Forall well_tagged
    (influx (snd (post_temperature_batch Batch.env Batch.batch 7 Scenario.world))) /\
  Forall well_tagged
    (influx (snd (fetch_and_store_weather_data Scenario.env 2 Scenario.world))).
Proof.
  assert (Hw : Forall well_tagged (influx Scenario.world)).
  { unfold Scenario.world; cbn [influx].
    apply Forall_cons; [apply room_point_well_tagged |].
    apply Forall_cons; [apply room_point_well_tagged | apply Forall_nil]. }
  destruct (bucket_stays_well_tagged Batch.env Scenario.world Hw)
    as (_ & Hbatch & _ & _).
  destruct (bucket_stays_well_tagged Scenario.env Scenario.world Hw)
    as (_ & _ & _ & Hloop).
  split; [apply Hbatch | apply Hloop].
Defined.

(** ** Writing a point, seen from a room query *)

Lemma series_of_app q written p :
  series_of q (written ++ [p]) =
    if point_matches q p
    then upsert (mkRecord (p_time p) (p_value p)) (series_of q written)
    else series_of q written.
Proof.
  unfold series_of. rewrite fold_left_app. reflexivity.
Qed.

Lemma same_room_series_refl w : same_room_series w w.
Proof. intros q. reflexivity. Qed.

Lemma same_room_series_trans a b c :
  same_room_series a b -> same_room_series b c -> same_room_series a c.
Proof. intros H1 H2 q. now rewrite H2, H1. Qed.

Lemma same_room_series_emit ev w : same_room_series w (emit ev w).
Proof. intros q. reflexivity. Qed.

Lemma same_room_series_write E p :
  p_room_id p = None -> respects same_room_series (write_api_write E p).
Proof.
  intros Hp w q. rewrite write_api_write_run. cbn [snd].
  destruct (is_finite (p_value p) && negb (influx_fault E (ticks w)));
    [| reflexivity].
  rewrite influx_set_influx, series_of_app.
  unfold point_matches. rewrite Hp. now rewrite andb_false_r.
Qed.

(** X9. The weather loop never touches what room queries see: after any
    number of cycles, whatever the provider, the database and the bucket
    did, every room query finds exactly the series it found before, and
    the relational tables are unchanged. *)
Theorem weather_loop_leaves_rooms_alone (E : Env) (n : nat) (w : World) :
  (forall q : FluxQuery,
     series_of q (influx (snd (fetch_and_store_weather_data E n w))) =
     series_of q (influx w)) /\
  users (snd (fetch_and_store_weather_data E n w)) = users w /\
  rooms (snd (fetch_and_store_weather_data E n w)) = rooms w /\
  room_settings (snd (fetch_and_store_weather_data E n w)) = room_settings w.
Proof.
  split.
  - apply (respects_weather_loop same_room_series (fun p => p_room_id p = None)
             same_room_series_refl same_room_series_trans same_room_series_emit
             same_room_series_write E n).
    reflexivity.
  - assert (H : respects
                  (fun a b => users b = users a /\ rooms b = rooms a /\
                              room_settings b = room_settings a)
                  (fetch_and_store_weather_data E n)).
    { apply (respects_weather_loop _ (fun _ => True)).
      - repeat split.
      - intros a b c (U1 & R1 & S1) (U2 & R2 & S2). repeat split; congruence.
      - repeat split.
      - intros E' p _ w'. rewrite write_api_write_run. cbn [snd].
        destruct (is_finite (p_value p) && negb (influx_fault E' (ticks w')));
          repeat split.
      - intros; exact I. }
    apply H.
Qed.

(** X10. [post_temperature] writes for the caller's rooms only, one point
    per call: for a room the caller does not own it raises 404 after the
    ownership query alone (no reading of the clock, no write).  For an
    owned room it hands exactly one [temperature] point to the write API,
    tagged with the caller and the room and carrying the posted value and
    the reading of the server's clock, and it reports success whatever
    becomes of that point: the bucket gains it when the value is finite
    and the flush is not lost, and is unchanged otherwise. *)
Theorem post_temperature_writes_one (E : Env) data user w :
  sql_fault E (ticks w) = false ->
  (owned_rooms (e_room_id data) user w = [] ->
   post_temperature E data user w =
     (Raise (HTTPException 404 "Room not found or access denied"),
      emit (EvSql (SelectRoom (e_room_id data) user)) w)) /\
  (owned_rooms (e_room_id data) user w <> [] ->
   fst (post_temperature E data user w) = Ok "Temperature recorded" /\
   writes (trace (snd (post_temperature E data user w))) =
     writes (trace w) ++
     [mkPoint "temperature" (py_str user) (Some (py_str (e_room_id data)))
              (temperature data) (wall E (utc_at E (1 + ticks w)))] /\
   influx (snd (post_temperature E data user w)) =
     if is_finite (temperature data) && negb (influx_fault E (2 + ticks w))
     then influx w ++
          [mkPoint "temperature" (py_str user) (Some (py_str (e_room_id data)))
                   (temperature data) (wall E (utc_at E (1 + ticks w)))]
     else influx w).
Proof.
  intros F1. split.
  - intros Hnone. unfold post_temperature, bind.
    rewrite (select_room_run E _ _ _ F1), Hnone. reflexivity.
  - intros Hroom.
    unfold post_temperature, bind.
    rewrite (select_room_run E _ _ _ F1), (is_empty_false _ Hroom).
    unfold datetime_now. rewrite write_api_write_run, !ticks_emit.
    cbn [p_value].
    change (S (S (ticks w))) with (2 + ticks w)%nat.
    change (S (ticks w)) with (1 + ticks w)%nat.
    destruct (is_finite (temperature data) && negb (influx_fault E (2 + ticks w)));
      unfold ret; cbn [fst snd];
      rewrite ?trace_set_influx, ?influx_set_influx, ?influx_emit;
      (split; [reflexivity |]);
      (split; [| reflexivity]);
      unfold emit; cbn [trace]; rewrite !writes_app; cbn;
      now rewrite !app_nil_r.
Qed.

Lemma post_temperature_writes_one_witness :
  fst (post_temperature Scenario.env (mkEntry 9 Scenario.t19_0) 7 Scenario.world)
    = Raise (HTTPException 404 "Room not found or access denied") /\
  List.length
    (influx (snd (post_temperature Scenario.env (mkEntry 1 Scenario.t19_0) 7
                    Scenario.world))) = 3%nat /\
  fst (post_temperature bucket_down (mkEntry 1 (S754_infinity false)) 7
         Scenario.world) = Ok "Temperature recorded" /\
  influx (snd (post_temperature bucket_down (mkEntry 1 (S754_infinity false)) 7
                 Scenario.world)) = influx Scenario.world.
Proof.
  assert (Hroom : owned_rooms 1 7 Scenario.world <> []) by discriminate.
  split; [| split; [| split]].
  - destruct (post_temperature_writes_one Scenario.env (mkEntry 9 Scenario.t19_0)
                7 Scenario.world eq_refl) as [H _].
    now rewrite (H eq_refl).
  - destruct (post_temperature_writes_one Scenario.env (mkEntry 1 Scenario.t19_0)
                7 Scenario.world eq_refl) as [_ H].
    destruct (H Hroom) as (_ & _ & Hinflux).
    rewrite Hinflux. reflexivity.
  - destruct (post_temperature_writes_one bucket_down
                (mkEntry 1 (S754_infinity false)) 7 Scenario.world eq_refl)
      as [_ H].
    destruct (H Hroom) as (Hok & _). exact Hok.
  - destruct (post_temperature_writes_one bucket_down
                (mkEntry 1 (S754_infinity false)) 7 Scenario.world eq_refl)
      as [_ H].
    destruct (H Hroom) as (_ & _ & Hinflux). rewrite Hinflux. reflexivity.
Defined.

Lemma first_record_last rows :
  first_record (flux_tables FluxLast rows) = last_row rows.
Proof.
  unfold flux_tables, first_record.
  destruct rows as [| x rest]; [reflexivity |].
  destruct (last_row (x :: rest)); reflexivity.
Qed.

Lemma get_latest_temperature_run (E : Env) room user w :
  sql_fault E (ticks w) = false ->
  owned_rooms room user w <> [] ->
  influx_fault E (1 + ticks w) = false ->
  get_latest_temperature E room user w =
    (match last_row (lookback_rows room user (utc_at E (1 + ticks w)) w) with
     | Some latest =>
         Ok (mkResponse (get_time latest) (get_value latest) room)
     | None => Raise (HTTPException 404 "No temperature data found")
     end,
     emit (EvInfluxQuery (latest_query room user))
       (emit (EvSql (SelectRoom room user)) w)).
Proof.
  intros F1 Hroom F2.
  unfold get_latest_temperature, bind.
  rewrite (select_room_run E room user w F1), (is_empty_false _ Hroom).
  unfold query_api_query. rewrite ticks_emit.
  change (S (ticks w)) with (1 + ticks w)%nat. rewrite F2.
  rewrite influx_emit, latest_query_run, first_record_last.
  destruct (last_row (lookback_rows room user (utc_at E (1 + ticks w)) w));
    reflexivity.
Qed.

(** X11. [get_latest_temperature] answers 404 "Room not found" without
    querying the bucket when the caller does not own the room, 404 "No
    temperature data found" when no point of the room's series lies in
    the seven days before the query, and otherwise the time and value of
    the latest sample in that window. *)
Theorem latest_temperature_spec (E : Env) room user w :
  sql_fault E (ticks w) = false ->
  (owned_rooms room user w = [] ->
   get_latest_temperature E room user w =
     (Raise (HTTPException 404 "Room not found"),
      emit (EvSql (SelectRoom room user)) w)) /\
  (owned_rooms room user w <> [] ->
   influx_fault E (1 + ticks w) = false ->
   (no_sample_in_lookback room user (utc_at E (1 + ticks w)) w ->
    fst (get_latest_temperature E room user w) =
      Raise (HTTPException 404 "No temperature data found")) /\
   (forall latest,
      latest_sample (lookback_rows room user (utc_at E (1 + ticks w)) w) latest ->
      fst (get_latest_temperature E room user w) =
        Ok (mkResponse (get_time latest) (get_value latest) room))).
Proof.
  intros F1. split.
  - intros Hnone. unfold get_latest_temperature, bind.
    rewrite (select_room_run E room user w F1), Hnone. reflexivity.
  - intros Hroom F2.
    rewrite (get_latest_temperature_run E room user w F1 Hroom F2). split.
    + intros Hnodata. now rewrite (no_sample_no_rows _ _ _ _ Hnodata).
    + intros latest Hlatest.
      now rewrite (last_row_latest _ _ (lookback_rows_sorted _ _ _ _) Hlatest).
Qed.

Lemma latest_temperature_spec_witness :
  fst (get_latest_temperature Scenario.env 9 7 Scenario.world) =
    Raise (HTTPException 404 "Room not found") /\
  fst (get_latest_temperature Scenario.env 1 7 Scenario.world) =
    Ok (mkResponse (Scenario.half_past_eleven - Scenario.hours 1)
                   Scenario.t17_5 1).
Proof.
  split.
  - destruct (latest_temperature_spec Scenario.env 9 7 Scenario.world eq_refl)
      as [H _].
    now rewrite (H eq_refl).
  - destruct (latest_temperature_spec Scenario.env 1 7 Scenario.world eq_refl)
      as [_ H].
    assert (Hroom : owned_rooms 1 7 Scenario.world <> []) by discriminate.
    destruct (H Hroom eq_refl) as [_ Hlatest].
    apply (Hlatest (mkRecord (Scenario.half_past_eleven - Scenario.hours 1)
                             Scenario.t17_5)).
    split.
    + vm_compute. right. left. reflexivity.
    + intros r' Hr'. vm_compute in Hr'.
      destruct Hr' as [<- | [<- | []]]; vm_compute; discriminate.
Defined.

(** ** Deleting a room: what goes and what stays *)

Lemma without_room_In room user stop pts p :
  In p (without_room room user stop pts) <->
  In p pts /\ ~ (written_for user room p /\ 0 <= p_time p <= stop).
Proof.
  unfold without_room. rewrite filter_In.
  assert (Hiff : (String.eqb (p_measurement p) "temperature" &&
                  match p_room_id p with
                  | Some r => String.eqb r (py_str room)
                  | None => false
                  end &&
                  String.eqb (p_user_id p) (py_str user) &&
                  (0 <=? p_time p) && (p_time p <=? stop)) = true <->
                 written_for user room p /\ 0 <= p_time p <= stop).
  { unfold written_for. rewrite !andb_true_iff, !Z.leb_le, !String.eqb_eq.
    destruct (p_room_id p) as [r |].
    - rewrite String.eqb_eq. split.
      + intros ((((Hm & Hr) & Hu) & H0) & H1). subst r. repeat split; assumption.
      + intros ((Hm & Hu & Hr) & H0 & H1). injection Hr as ->.
        repeat split; assumption.
    - split.
      + intros ((((_ & Hr) & _) & _) & _). discriminate.
      + intros ((_ & _ & Hr) & _). discriminate. }
  rewrite negb_true_iff, <- not_true_iff_false, Hiff. reflexivity.
Qed.

Lemma owned_rooms_emit room user ev w :
  owned_rooms room user (emit ev w) = owned_rooms room user w.
Proof. reflexivity. Qed.

(** X14. [delete_room] for a room the caller does not own raises 404
    after the ownership query alone: no row, no point is deleted.  For an
    owned room, when the range-delete goes through, a stored point is
    deleted exactly when it is a [temperature] point tagged with this
    caller and this room whose time lies between 1970 and the reading of
    the server's clock; every other point stays, in particular the points
    of other rooms and users, and the room's points with a later
    timestamp. *)
Theorem delete_room_effects (E : Env) room user w :
  sql_fault E (ticks w) = false ->
  (owned_rooms room user w = [] ->
   delete_room E room user w =
     (Raise (HTTPException 404 "Room not found or access denied"),
      emit (EvSql (SelectRoom room user)) w)) /\
  (owned_rooms room user w <> [] ->
   influx_fault E (2 + ticks w) = false ->
   influx (snd (delete_room E room user w)) =
     without_room room user (wall E (utc_at E (1 + ticks w))) (influx w) /\
   forall p,
     In p (influx (snd (delete_room E room user w))) <->
     In p (influx w) /\
     ~ (written_for user room p /\
        0 <= p_time p <= wall E (utc_at E (1 + ticks w)))).
Proof.
  intros F1. split.
  - intros Hnone. unfold delete_room, bind.
    rewrite (select_room_run E room user w F1), Hnone. reflexivity.
  - intros Hroom F2.
    assert (Hinflux : influx (snd (delete_room E room user w)) =
                      without_room room user (wall E (utc_at E (1 + ticks w)))
                        (influx w)).
    { unfold delete_room, bind.
      rewrite (select_room_run E room user w F1), (is_empty_false _ Hroom).
      unfold try_except, bind, datetime_now, delete_api_delete.
      rewrite !ticks_emit.
      change (S (S (ticks w))) with (2 + ticks w)%nat. rewrite F2.
      unfold ret, delete_from_rooms, execute_query.
      match goal with
      | |- context [sql_fault E ?n] => destruct (sql_fault E n)
      end; reflexivity. }
    split; [exact Hinflux |].
    intros p. rewrite Hinflux. apply without_room_In.
Qed.

Lemma delete_room_effects_witness :
  fst (delete_room Scenario.env 9 7 Scenario.world) =
    Raise (HTTPException 404 "Room not found or access denied") /\
  influx (snd (delete_room Scenario.env 1 7 Scenario.world)) = [].
Proof.
  split.
  - destruct (delete_room_effects Scenario.env 9 7 Scenario.world eq_refl)
      as [H _].
    now rewrite (H eq_refl).
  - destruct (delete_room_effects Scenario.env 1 7 Scenario.world eq_refl)
      as [_ H].
    assert (Hroom : owned_rooms 1 7 Scenario.world <> []) by discriminate.
    destruct (H Hroom eq_refl) as [Hinflux _].
    rewrite Hinflux. vm_compute. reflexivity.
Defined.

Lemma owned_rooms_after_delete room user' rs :
  map r_id
    (filter (fun r => (r_id r =? room) && (r_user_id r =? user'))
            (filter (fun r => negb (r_id r =? room)) rs)) = [].
Proof.
  induction rs as [| r rest IH]; cbn; [reflexivity |].
  destruct (r_id r =? room) eqn:Hid; cbn; [exact IH |].
  rewrite Hid. cbn. exact IH.
Qed.

Lemma ticks_set_rooms rs ss w : ticks (set_rooms rs ss w) = ticks w.
Proof. reflexivity. Qed.

(** The relational side of a deletion, and the number of interactions. *)
Lemma delete_room_rows_and_ticks (E : Env) room user w :
  sql_fault E (ticks w) = false ->
  owned_rooms room user w <> [] ->
  sql_fault E (3 + ticks w) = false ->
  rooms (snd (delete_room E room user w)) =
    filter (fun r => negb (r_id r =? room)) (rooms w) /\
  ticks (snd (delete_room E room user w)) = (4 + ticks w)%nat.
Proof.
  intros F1 Hroom F2.
  unfold delete_room, bind.
  rewrite (select_room_run E room user w F1), (is_empty_false _ Hroom).
  unfold try_except, bind, datetime_now, delete_api_delete.
  rewrite !ticks_emit.
  destruct (influx_fault E (S (S (ticks w))));
    unfold ret, delete_from_rooms, execute_query;
    rewrite ?ticks_set_influx, ?ticks_emit;
    change (S (S (S (ticks w)))) with (3 + ticks w)%nat;
    rewrite F2; cbn [fst snd]; (split; [reflexivity |]);
    rewrite ticks_set_rooms, ?ticks_emit, ?ticks_set_influx, ?ticks_emit;
    reflexivity.
Qed.

Lemma decision_gone (E : Env) room user w :
  sql_fault E (ticks w) = false ->
  owned_rooms room user w = [] ->
  fst (get_heating_status E room user w) =
    Raise (HTTPException 404 "Room not found") /\
  fst (get_latest_temperature E room user w) =
    Raise (HTTPException 404 "Room not found").
Proof.
  intros F Hgone. split.
  - unfold get_heating_status, bind.
    rewrite (select_room_run E _ _ _ F), Hgone. reflexivity.
  - unfold get_latest_temperature, bind.
    rewrite (select_room_run E _ _ _ F), Hgone. reflexivity.
Qed.

(** X15. Once [delete_room] has succeeded, the room is gone for every
    caller, whether or not the bucket was cleaned: the next decision and
    the next latest-reading query for it answer 404 "Room not found", and
    a reading posted for it is refused with 404 and not written. *)
Theorem deleted_room_is_gone (E : Env) room user w user' data :
  sql_fault E (ticks w) = false ->
  owned_rooms room user w <> [] ->
  sql_fault E (3 + ticks w) = false ->
  sql_fault E (4 + ticks w) = false ->
  e_room_id data = room ->
  let w' := snd (delete_room E room user w) in
  fst (get_heating_status E room user' w') =
    Raise (HTTPException 404 "Room not found") /\
  fst (get_latest_temperature E room user' w') =
    Raise (HTTPException 404 "Room not found") /\
  fst (post_temperature E data user' w') =
    Raise (HTTPException 404 "Room not found or access denied") /\
  influx (snd (post_temperature E data user' w')) = influx w'.
Proof.
  intros F1 Hroom F2 F3 Hdata w'.
  destruct (delete_room_rows_and_ticks E room user w F1 Hroom F2)
    as [Hrooms Hticks].
  fold w' in Hrooms, Hticks.
  assert (Hgone : owned_rooms room user' w' = []).
  { unfold owned_rooms. rewrite Hrooms. apply owned_rooms_after_delete. }
  assert (F3' : sql_fault E (ticks w') = false) by now rewrite Hticks.
  split; [| split; [| split]].
  - destruct (decision_gone E room user' w' F3' Hgone) as [H _]. exact H.
  - destruct (decision_gone E room user' w' F3' Hgone) as [_ H]. exact H.
  - unfold post_temperature, bind. rewrite Hdata.
    rewrite (select_room_run E _ _ _ F3'), Hgone. reflexivity.
  - unfold post_temperature, bind. rewrite Hdata.
    rewrite (select_room_run E _ _ _ F3'), Hgone. reflexivity.
Qed.

Lemma deleted_room_is_gone_witness :
  fst (get_heating_status Scenario.env 1 7
         (snd (delete_room Scenario.env 1 7 Scenario.world))) =
    Raise (HTTPException 404 "Room not found").
Proof.
  assert (Hroom : owned_rooms 1 7 Scenario.world <> []) by discriminate.
  destruct (deleted_room_is_gone Scenario.env 1 7 Scenario.world 7
              (mkEntry 1 Scenario.t19_0) eq_refl Hroom eq_refl eq_refl eq_refl)
    as [H _].
  exact H.
Defined.

(** ** Edges of the weather cycle and of the batch *)

(** X16. A weather cycle in which the locations cannot be loaded, or in
    which there are none, makes no request to the provider and writes
    nothing; it does not raise, and it still sleeps its 600 seconds. *)
Theorem weather_cycle_without_locations (E : Env) w :
  sql_fault E (ticks w) = true \/ users w = [] ->
  weather_cycle E w =
    (Ok tt, emit (EvSleep 600) (emit (EvSql SelectUsers) w)) /\
  influx (snd (weather_cycle E w)) = influx w /\
  http_requests (trace (snd (weather_cycle E w))) = http_requests (trace w).
Proof.
  intros H.
  assert (Hrun : weather_cycle E w =
                 (Ok tt, emit (EvSleep 600) (emit (EvSql SelectUsers) w))).
  { unfold weather_cycle, bind at 1, try_except, bind, select_users, execute_query.
    destruct (sql_fault E (ticks w)) eqn:F; [reflexivity |].
    destruct H as [H | H]; [discriminate |].
    change (users (emit (EvSql SelectUsers) w)) with (users w).
    rewrite H. reflexivity. }
  rewrite Hrun. cbn [snd]. split; [reflexivity |]. split; [reflexivity |].
  now rewrite !http_requests_emit, !app_nil_r.
Qed.

Lemma weather_cycle_without_locations_witness :
  influx (snd (weather_cycle database_down ThreeLocations.world)) = [] /\
  http_requests (trace (snd (weather_cycle database_down ThreeLocations.world)))
    = [].
Proof.
  destruct (weather_cycle_without_locations database_down ThreeLocations.world
              (or_introl eq_refl)) as (_ & Hinflux & Hreq).
  split; [rewrite Hinflux | rewrite Hreq]; reflexivity.
Defined.

(** X17. The edges of [post_temperature_batch]: for a room the caller
    does not own the call raises 404 after the ownership query alone,
    whatever the batch holds; an empty batch for an owned room succeeds,
    reports "0 temperatures recorded" and neither reads the clock nor
    writes. *)
Theorem batch_edges (E : Env) batch user w :
  sql_fault E (ticks w) = false ->
  (owned_rooms (b_room_id batch) user w = [] ->
   post_temperature_batch E batch user w =
     (Raise (HTTPException 404 "Room not found or access denied"),
      emit (EvSql (SelectRoom (b_room_id batch) user)) w)) /\
  (owned_rooms (b_room_id batch) user w <> [] ->
   temperatures batch = [] ->
   post_temperature_batch E batch user w =
     (Ok "0 temperatures recorded",
      emit (EvSql (SelectRoom (b_room_id batch) user)) w)).
Proof.
  intros F1. split.
  - intros Hnone. unfold post_temperature_batch, bind.
    rewrite (select_room_run E _ _ _ F1), Hnone. reflexivity.
  - intros Hroom Hempty. unfold post_temperature_batch, bind.
    rewrite (select_room_run E _ _ _ F1), (is_empty_false _ Hroom), Hempty.
    reflexivity.
Qed.

Lemma batch_edges_witness :
  fst (post_temperature_batch Scenario.env (mkBatch 9 [Scenario.t19_0] None) 7
         Scenario.world) =
    Raise (HTTPException 404 "Room not found or access denied") /\
  fst (post_temperature_batch Scenario.env (mkBatch 1 [] (Some ["x"])) 7
         Scenario.world) = Ok "0 temperatures recorded".
Proof.
  split.
  - destruct (batch_edges Scenario.env (mkBatch 9 [Scenario.t19_0] None) 7
                Scenario.world eq_refl) as [H _].
    now rewrite (H eq_refl).
  - destruct (batch_edges Scenario.env (mkBatch 1 [] (Some ["x"])) 7
                Scenario.world eq_refl) as [_ H].
    rewrite H; [reflexivity | discriminate | reflexivity].
Defined.

(** ** Whose samples a range query returns *)

Lemma written_for_unique user room user' room' p :
  written_for user room p -> written_for user' room' p ->
  user' = user /\ room' = room.
Proof.
  intros (_ & Hu & Hr) (_ & Hu' & Hr').
  rewrite Hu in Hu'. rewrite Hr in Hr'. injection Hr' as Hr'.
  split; symmetry; now apply py_str_inj.
Qed.

Lemma room_query_matches start stop tail room user p :
  point_matches (mkQuery start stop "temperature" (py_str user) (py_str room) tail) p
    = true ->
  written_for user room p.
Proof.
  unfold point_matches, written_for; cbn.
  rewrite !andb_true_iff, !String.eqb_eq.
  intros [[Hm Hu] Hr]. destruct (p_room_id p) as [r |]; [| discriminate].
  apply String.eqb_eq in Hr. subst r. repeat split; assumption.
Qed.

(** X18. A range query with plain bounds (no double quote, backslash or
    dollar sign in [start] or [end], so that they stay string literals of
    the query text) returns only the caller's samples of the room asked
    for: every entry of a successful answer carries the asked room id and
    the time and value of a stored [temperature] point tagged with this
    caller and this room, and such a point is tagged for no other user or
    room (the decimal tags of different ids differ). *)
Theorem range_query_isolated (E : Env) room user start end_ w results :
  plain_bound start = true ->
  plain_bound end_ = true ->
  fst (get_room_temperatures E room user start end_ w) = Ok results ->
  forall resp, In resp results ->
    resp_room_id resp = room /\
    exists p, In p (influx w) /\ written_for user room p /\
              p_time p = resp_time resp /\ p_value p = resp_value resp /\
              forall user' room', written_for user' room' p ->
                                  user' = user /\ room' = room.
Proof.
  intros _ _.
  unfold get_room_temperatures, bind, select_room, execute_query.
  destruct (sql_fault E (ticks w)); [discriminate |].
  destruct (is_empty _); [discriminate |].
  unfold query_api_query.
  destruct (influx_fault E _); [discriminate |].
  unfold run_flux; cbn [q_start q_stop q_tail].
  destruct (flux_bound E _ (start_flux start)) as [lo |]; [| discriminate].
  destruct (flux_bound E _ (end_flux end_)) as [hi |]; [| discriminate].
  destruct (hi <=? lo); [discriminate |].
  unfold ret; cbn [fst]. intros [= <-] resp Hresp.
  rewrite concat_sorted_tables in Hresp.
  apply in_map_iff in Hresp. destruct Hresp as (r & <- & Hr).
  split; [reflexivity |].
  apply sort_by_time_In, filter_In in Hr. destruct Hr as [Hr _].
  destruct (series_of_In _ _ _ Hr) as (p & Hp & Hm & ->).
  apply room_query_matches in Hm.
  exists p. cbn. repeat split; try assumption; try apply Hm.
  - eapply written_for_unique in H; [apply H | exact Hm].
  - eapply written_for_unique in H; [apply H | exact Hm].
Qed.

Lemma range_query_isolated_witness :
  exists p,
    In p (influx Scenario.world) /\ written_for 7 1 p /\
    p_time p = Scenario.half_past_eleven - Scenario.hours 2 /\
    p_value p = Scenario.t19_0.
Proof.
  assert (Hrun : fst (get_room_temperatures Scenario.env 1 7 None None
                        Scenario.world) =
                 Ok [mkResponse (Scenario.half_past_eleven - Scenario.hours 2)
                                Scenario.t19_0 1;
                     mkResponse (Scenario.half_past_eleven - Scenario.hours 1)
                                Scenario.t17_5 1])
    by (vm_compute; reflexivity).
  destruct (range_query_isolated Scenario.env 1 7 None None Scenario.world _
              eq_refl eq_refl Hrun
              (mkResponse (Scenario.half_past_eleven - Scenario.hours 2)
                          Scenario.t19_0 1) (or_introl eq_refl))
    as (_ & p & Hp & Hfor & Ht & Hv & _).
  exists p. repeat split; try assumption; apply Hfor.
Defined.

(** ** A [TIME] outside the day *)

(** X19. When the settings row of an owned room holds a [night_start] or
    a [night_end] that is a [timedelta] of 24 hours or more (or of minus
    one second or less), the decision raises [ValueError] right after
    reading the clock: the bucket is not queried and no decision is
    returned, whatever the room's readings are. *)
Theorem decision_fails_on_time_outside_day (E : Env) room user w s rest td :
  sql_fault E (ticks w) = false ->
  owned_rooms room user w <> [] ->
  sql_fault E (1 + ticks w) = false ->
  heating_settings_rows user room w = s :: rest ->
  td <= - us_per_second \/ us_per_day <= td ->
  night_start s = SqlTimedelta td \/
  ((exists ns, to_time E (night_start s) = Ok ns) /\
   night_end s = SqlTimedelta td) ->
  get_heating_status E room user w =
    (Raise ValueError,
     emit EvClock
       (emit (EvSql (SelectHeatingSettings user room))
          (emit (EvSql (SelectRoom room user)) w))).
Proof.
  intros F1 Hroom F2 Hset Htd Hwhich.
  pose proof (to_time_timedelta_outside E td Htd) as Hbad.
  unfold get_heating_status, bind.
  rewrite (select_room_run E room user w F1), (is_empty_false _ Hroom).
  rewrite select_heating_settings_run by (now rewrite ticks_emit).
  change (heating_settings_rows user room (emit (EvSql (SelectRoom room user)) w))
    with (heating_settings_rows user room w).
  rewrite Hset. unfold datetime_now, lift.
  destruct Hwhich as [Hs | [[ns Hns] He]].
  - rewrite Hs, Hbad. reflexivity.
  - rewrite Hns, He, Hbad. reflexivity.
Qed.

Lemma decision_fails_on_time_outside_day_witness :
  fst (get_heating_status Scenario.env 1 7 midnight_end_world) = Raise ValueError.
Proof.
  assert (Hroom : owned_rooms 1 7 midnight_end_world <> []) by discriminate.
  assert (Htd : Scenario.hours 24 <= - us_per_second \/
                us_per_day <= Scenario.hours 24)
    by (right; vm_compute; discriminate).
  rewrite (decision_fails_on_time_outside_day Scenario.env 1 7 midnight_end_world
             (mkHeating Scenario.t21_0 Scenario.t18_0
                        (SqlTimedelta (Scenario.hours 22))
                        (SqlTimedelta (Scenario.hours 24)))
             [] (Scenario.hours 24) eq_refl Hroom eq_refl eq_refl Htd).
  - reflexivity.
  - right. split; [| reflexivity]. eexists. vm_compute. reflexivity.
Defined.

(** ** Whose samples a decision reads *)

Lemma foreign_point_no_match room user p :
  ~ written_for user room p ->
  point_matches (latest_query room user) p = false.
Proof.
  intros Hnot. destruct (point_matches (latest_query room user) p) eqn:Hm;
    [| reflexivity].
  exfalso. apply Hnot. unfold latest_query in Hm.
  now apply room_query_matches in Hm.
Qed.

Lemma get_heating_status_add_point (E : Env) room user p w :
  ~ written_for user room p ->
  get_heating_status E room user (add_point p w) =
    (fst (get_heating_status E room user w),
     add_point p (snd (get_heating_status E room user w))).
Proof.
  intros Hnot.
  unfold get_heating_status, bind, select_room, select_heating_settings,
    execute_query.
  change (ticks (add_point p w)) with (ticks w).
  destruct (sql_fault E (ticks w)); [reflexivity |].
  change (owned_rooms room user (emit (EvSql (SelectRoom room user)) (add_point p w)))
    with (owned_rooms room user w).
  change (owned_rooms room user (emit (EvSql (SelectRoom room user)) w))
    with (owned_rooms room user w).
  destruct (is_empty (owned_rooms room user w)); [reflexivity |].
  change (ticks (emit (EvSql (SelectRoom room user)) (add_point p w)))
    with (ticks (emit (EvSql (SelectRoom room user)) w)).
  destruct (sql_fault E (ticks (emit (EvSql (SelectRoom room user)) w)));
    [reflexivity |].
  change (heating_settings_rows user room
            (emit (EvSql (SelectHeatingSettings user room))
               (emit (EvSql (SelectRoom room user)) (add_point p w))))
    with (heating_settings_rows user room w).
  change (heating_settings_rows user room
            (emit (EvSql (SelectHeatingSettings user room))
               (emit (EvSql (SelectRoom room user)) w)))
    with (heating_settings_rows user room w).
  destruct (heating_settings_rows user room w) as [| s rest]; [reflexivity |].
  unfold datetime_now, lift.
  destruct (to_time E (night_start s)); [| reflexivity].
  destruct (to_time E (night_end s)); [| reflexivity].
  unfold query_api_query.
  rewrite !ticks_emit.
  change (ticks (add_point p w)) with (ticks w).
  cbn [emit add_point set_influx influx].
  match goal with
  | |- context [influx_fault E ?n] => destruct (influx_fault E n)
  end; [reflexivity |].
  unfold run_flux.
  rewrite series_of_app, (foreign_point_no_match _ _ _ Hnot).
  match goal with
  | |- context [flux_bound E ?n ?b] => destruct (flux_bound E n b)
  end; [| reflexivity].
  match goal with
  | |- context [flux_bound E ?n (q_stop ?q)] => destruct (flux_bound E n (q_stop q))
  end; [| reflexivity].
  match goal with
  | |- context [?hi <=? ?lo] => destruct (hi <=? lo)
  end; [reflexivity |].
  match goal with
  | |- context [current_temp ?t] => destruct (current_temp t)
  end; reflexivity.
Qed.

(** X20. The decision for a room reads that room's samples only: a point
    in the bucket that is not a [temperature] point tagged with this
    caller and this room (a reading of another room or another user, a
    weather sample) has no influence on it.  With such a point added, the
    decision run from the same state gives the same answer, or the same
    error. *)
Theorem decision_ignores_foreign_points (E : Env) room user p w :
  ~ written_for user room p ->
  fst (get_heating_status E room user (add_point p w)) =
  fst (get_heating_status E room user w).
Proof.
  intros Hnot. now rewrite (get_heating_status_add_point E room user p w Hnot).
Qed.

Lemma decision_ignores_foreign_points_witness :
  fst (get_heating_status Scenario.env 1 7
         (add_point (Scenario.sample 8 1 Scenario.t21_0
                       (Scenario.half_past_eleven - Scenario.minutes 1))
                    Scenario.world)) = Ok true.
Proof.
  rewrite (decision_ignores_foreign_points Scenario.env 1 7
             (Scenario.sample 8 1 Scenario.t21_0
                (Scenario.half_past_eleven - Scenario.minutes 1))
             Scenario.world).
  - vm_compute. reflexivity.
  - intros (_ & Hu & _). vm_compute in Hu. discriminate.
Defined.
